(** * Jira test-automation generator: shallow embedding and checked properties

    The development follows the three Python modules of the repository:

    - [jira_service.py]   (ticket client)            -> Module [JiraService]
    - [test_generator.py] (extraction and rendering) -> Module [TestGenerator]
    - [server.py]         (tool facade)              -> Module [Server]

    Modelling conventions.

    - A Python [str] is a Rocq [string]; one [ascii] is one character.  The
      character operations ([lower], [upper], [isspace], case-insensitive
      matching) are the ASCII ones, which is what Python computes on ASCII
      text.  The rule character used in the plan templates is written as its
      UTF-8 bytes, the form in which [write_text(..., encoding="utf-8")]
      stores it.
    - Dict payloads are records whose optional keys are [option] fields
      (the [.get(key, default)] idiom), with the value types of the code's
      annotations.
    - Exceptions are the [Raise] branch of [res].
    - File-system calls ([mkdir], [write_text]) are recorded, in program
      order, in an event log that a separate function replays on a finite
      map from paths to contents.
    - What the interpreter or the platform decides (iteration order of a
      [set], [pathlib] joining, the clock, the tracker's HTTP answers) is a
      parameter. *)

From Stdlib Require Import Strings.String Strings.Ascii Numbers.DecimalString.
From Stdlib Require Import Numbers.DecimalNat Arith.PeanoNat Lia FinFun.
From stdpp Require Import base option list gmap strings.

Local Open Scope string_scope.
Local Open Scope list_scope.
Local Open Scope stdpp_scope.

(* ===================================================================== *)
(** ** Python string primitives *)
(* ===================================================================== *)

Module Py.

(** Characters that cannot be typed inside a literal. *)
Definition NL : ascii := ascii_of_nat 10.
Definition CR : ascii := ascii_of_nat 13.
Definition DQ : ascii := ascii_of_nat 34.
Definition nl : string := String NL EmptyString.
Definition dq : string := String DQ EmptyString.

(** [f"{a}{b}..."] and [a + b + ...]. *)
Definition cat (parts : list string) : string := String.concat "" parts.

(** [sep.join(parts)]. *)
Definition join (sep : string) (parts : list string) : string :=
  String.concat sep parts.

Definition len (s : string) : nat := String.length s.

(** [s[:n]]. *)
Fixpoint slice_to (n : nat) (s : string) : string :=
  match n, s with
  | S n', String c s' => String c (slice_to n' s')
  | _, _ => EmptyString
  end.

(** [s[n:]]. *)
Fixpoint slice_from (n : nat) (s : string) : string :=
  match n, s with
  | S n', String _ s' => slice_from n' s'
  | _, _ => s
  end.

(** [c * n]. *)
Fixpoint times (s : string) (n : nat) : string :=
  match n with
  | O => EmptyString
  | S n' => s +:+ times s n'
  end.

Definition in_range (lo hi : nat) (c : ascii) : bool :=
  let n := nat_of_ascii c in Nat.leb lo n && Nat.leb n hi.

(** [c.isspace()]: tab, LF, VT, FF, CR, the four separators 0x1c-0x1f
    and the space. *)
Definition isspace (c : ascii) : bool :=
  in_range 9 13 c || in_range 28 31 c || in_range 32 32 c.

Definition isupper (c : ascii) : bool := in_range 65 90 c.
Definition islower (c : ascii) : bool := in_range 97 122 c.

Definition lower_char (c : ascii) : ascii :=
  if isupper c then ascii_of_nat (nat_of_ascii c + 32) else c.

Definition upper_char (c : ascii) : ascii :=
  if islower c then ascii_of_nat (nat_of_ascii c - 32) else c.

Fixpoint map_chars (f : ascii -> ascii) (s : string) : string :=
  match s with
  | EmptyString => EmptyString
  | String c s' => String (f c) (map_chars f s')
  end.

(** [s.lower()], [s.upper()]. *)
Definition lower : string -> string := map_chars lower_char.
Definition upper : string -> string := map_chars upper_char.

(** [s.title()]: a cased character is upper-cased when the previous
    character is not cased, lower-cased otherwise. *)
Fixpoint title_from (prev_cased : bool) (s : string) : string :=
  match s with
  | EmptyString => EmptyString
  | String c s' =>
      let cased := isupper c || islower c in
      String (if prev_cased then lower_char c else upper_char c)
             (title_from cased s')
  end.
Definition title : string -> string := title_from false.

(** [s.lstrip()], [s.rstrip()], [s.strip()]. *)
Fixpoint lstrip (s : string) : string :=
  match s with
  | String c s' => if isspace c then lstrip s' else s
  | EmptyString => EmptyString
  end.

Fixpoint rstrip (s : string) : string :=
  match s with
  | EmptyString => EmptyString
  | String c s' =>
      match rstrip s' with
      | EmptyString => if isspace c then EmptyString else String c EmptyString
      | r => String c r
      end
  end.

Definition strip (s : string) : string := rstrip (lstrip s).

(** [s.startswith(p)], returning the remainder. *)
Fixpoint strip_prefix (p s : string) : option string :=
  match p, s with
  | EmptyString, _ => Some s
  | String a p', String b s' =>
      if Ascii.eqb a b then strip_prefix p' s' else None
  | String _ _, EmptyString => None
  end.

(** [needle in hay]. *)
Fixpoint contains (needle hay : string) : bool :=
  match strip_prefix needle hay with
  | Some _ => true
  | None =>
      match hay with
      | EmptyString => false
      | String _ hay' => contains needle hay'
      end
  end.

(** [s.replace(old, new)] for a non-empty [old]: leftmost,
    non-overlapping occurrences.  [skip] counts the characters of the
    occurrence being replaced that are still to be passed over. *)
Fixpoint replace_from (skip : nat) (old new s : string) : string :=
  match s with
  | EmptyString => EmptyString
  | String c s' =>
      match skip with
      | S k => replace_from k old new s'
      | O =>
          match strip_prefix old s with
          | Some _ => new +:+ replace_from (len old - 1) old new s'
          | None => String c (replace_from 0 old new s')
          end
      end
  end.
Definition replace_all (old new s : string) : string := replace_from 0 old new s.

(** [s.split(sep)] for a non-empty [sep]; [cur] holds, reversed, the
    characters of the piece being read. *)
Fixpoint split_from (skip : nat) (sep : string) (cur : list ascii) (s : string)
  : list string :=
  match s with
  | EmptyString => [string_of_list_ascii (rev cur)]
  | String c s' =>
      match skip with
      | S k => split_from k sep cur s'
      | O =>
          match strip_prefix sep s with
          | Some _ =>
              string_of_list_ascii (rev cur) :: split_from (len sep - 1) sep [] s'
          | None => split_from 0 sep (c :: cur) s'
          end
      end
  end.
Definition split_on (sep s : string) : list string := split_from 0 sep [] s.

(** [str(n)] for a non-negative integer. *)
Definition str_of_nat (n : nat) : string :=
  NilEmpty.string_of_uint (Nat.to_uint n).

(** Truthiness of a string: [if s:]. *)
Definition truthy (s : string) : bool :=
  match s with EmptyString => false | _ => true end.

End Py.

(* ===================================================================== *)
(** ** Results and exceptions *)
(* ===================================================================== *)

Inductive exn : Type :=
| ValueError (msg : string)
| KeyError (key : string)
| AttributeError (msg : string).

Inductive res (A : Type) : Type :=
| Ok (a : A)
| Raise (e : exn).
Arguments Ok {A} a.
Arguments Raise {A} e.

(** Sequencing of computations that may raise: [x ← c; k]. *)
#[global] Instance res_ret : MRet res := fun _ a => Ok a.
#[global] Instance res_bind : MBind res := fun _ _ f x =>
  match x with
  | Ok a => f a
  | Raise e => Raise e
  end.

(* ===================================================================== *)
(** ** The fragment of Python's [re] used by the generator *)
(* ===================================================================== *)

Module Re.

(** One-character items.  Every pattern of the program is compiled with
    [re.IGNORECASE | re.DOTALL]: a literal matches both cases and the dot
    matches every character, the newline included. *)
Inductive item : Type :=
| Lit (c : ascii)            (* a literal character *)
| Space                      (* \s *)
| Dot                        (* . *)
| Set_ (cs : list ascii).    (* [...] *)

Inductive regex : Type :=
| Empty                               (* the empty pattern *)
| One (i : item)
| AtEnd                               (* $ without re.MULTILINE *)
| Cat (r1 r2 : regex)
| Alt (r1 r2 : regex)                 (* r1|r2 *)
| Opt (i : item)                      (* i? *)
| Rep (greedy : bool) (min : nat) (i : item)
                                      (* i*, i+ (greedy); i*?, i+? (lazy) *)
| Group (n : nat) (r : regex).        (* the n-th capturing group *)

Definition lit_ci (c x : ascii) : bool :=
  Ascii.eqb (Py.lower_char x) (Py.lower_char c).

Definition item_match (i : item) (x : ascii) : bool :=
  match i with
  | Lit c => lit_ci c x
  | Space => Py.isspace x
  | Dot => true
  | Set_ cs => existsb (fun c => lit_ci c x) cs
  end.

(** [$]: at the end of the text, or just before a newline that ends it. *)
Definition at_end (s : string) : bool :=
  match s with
  | EmptyString => true
  | String c EmptyString => Ascii.eqb c Py.NL
  | _ => false
  end.

(** Captures: group number and captured text, most recent first. *)
Definition caps : Type := list (nat * string).

Fixpoint get_cap (n : nat) (g : caps) : option string :=
  match g with
  | [] => None
  | (m, t) :: g' => if Nat.eqb n m then Some t else get_cap n g'
  end.

(** The text between two suffixes of the same string. *)
Definition between (from to : string) : string :=
  Py.slice_to (Py.len from - Py.len to) from.

Section Matcher.
Context {R : Type}.

(** Greedy repetition of one item: as many as possible, then give
    characters back one at a time. *)
Fixpoint rep_greedy (i : item) (min : nat) (s : string) (g : caps)
         (k : string -> caps -> option R) : option R :=
  let stop := if Nat.eqb min 0 then k s g else None in
  match s with
  | String x s' =>
      if item_match i x then
        match rep_greedy i (pred min) s' g k with
        | Some r => Some r
        | None => stop
        end
      else stop
  | EmptyString => stop
  end.

(** Lazy repetition of one item: as few as possible, then take one
    more character at a time. *)
Fixpoint rep_lazy (i : item) (min : nat) (s : string) (g : caps)
         (k : string -> caps -> option R) : option R :=
  match min with
  | O =>
      match k s g with
      | Some r => Some r
      | None =>
          match s with
          | String x s' =>
              if item_match i x then rep_lazy i 0 s' g k else None
          | EmptyString => None
          end
      end
  | S m =>
      match s with
      | String x s' =>
          if item_match i x then rep_lazy i m s' g k else None
      | EmptyString => None
      end
  end.

(** Backtracking matcher in continuation-passing style: [k] is the rest
    of the pattern; alternatives are tried in the order of [re]. *)
Fixpoint run (r : regex) (s : string) (g : caps)
         (k : string -> caps -> option R) : option R :=
  match r with
  | Empty => k s g
  | One i =>
      match s with
      | String x s' => if item_match i x then k s' g else None
      | EmptyString => None
      end
  | AtEnd => if at_end s then k s g else None
  | Cat r1 r2 => run r1 s g (fun s' g' => run r2 s' g' k)
  | Alt r1 r2 =>
      match run r1 s g k with
      | Some x => Some x
      | None => run r2 s g k
      end
  | Opt i =>
      let skip := k s g in
      match s with
      | String x s' =>
          if item_match i x then
            match k s' g with
            | Some r => Some r
            | None => skip
            end
          else skip
      | EmptyString => skip
      end
  | Rep true min i => rep_greedy i min s g k
  | Rep false min i => rep_lazy i min s g k
  | Group n r1 =>
      run r1 s g (fun s' g' => k s' ((n, between s s') :: g'))
  end.
End Matcher.

(** A match object: the number of characters matched and the groups. *)
Record match_ : Type := { width : nat; groups : caps }.

(** [m.group(n)]; [None] when the group took no part in the match. *)
Definition group (m : match_) (n : nat) : option string := get_cap n (groups m).

(** One attempt at the head of [s].  With [must_advance] an empty match
    is refused and the matcher backtracks. *)
Definition match_at (r : regex) (must_advance : bool) (s : string)
  : option match_ :=
  run r s []
      (fun s' g =>
         let w := Py.len s - Py.len s' in
         if must_advance && Nat.eqb w 0 then None
         else Some {| width := w; groups := g |}).

(** [re.finditer]: leftmost matches, left to right, without overlap.
    [skip] counts the characters of the last match that remain to be
    passed over.  After an empty match the same position is tried once
    more with [must_advance]. *)
Definition attempts (r : regex) (s : string) : list match_ * nat :=
  match match_at r false s with
  | None => ([], 0)
  | Some m =>
      if Nat.eqb (width m) 0 then
        match match_at r true s with
        | None => ([m], 0)
        | Some m' => ([m; m'], width m')
        end
      else ([m], width m)
  end.

Fixpoint finditer_from (r : regex) (skip : nat) (s : string) : list match_ :=
  match skip with
  | S (S k) =>
      match s with
      | String _ s' => finditer_from r (S k) s'
      | EmptyString => []
      end
  | _ =>
      (* skip = 1: the last match ends here; skip = 0: free position *)
      let (ms, w) := attempts r s in
      ms ++
      match s with
      | String _ s' => finditer_from r w s'
      | EmptyString => []
      end
  end.

Definition finditer (r : regex) (s : string) : list match_ :=
  finditer_from r 0 s.

(** The groups that lie on every path through the pattern: outside
    alternatives and optional parts. *)
Fixpoint always_set (r : regex) : list nat :=
  match r with
  | Cat r1 r2 => always_set r1 ++ always_set r2
  | Group n r1 => n :: always_set r1
  | _ => []
  end.

(** Pattern-building helpers. *)
Fixpoint cats (rs : list regex) : regex :=
  match rs with
  | [] => Empty
  | [r] => r
  | r :: rs' => Cat r (cats rs')
  end.

Definition word (w : string) : regex :=
  cats (map (fun c => One (Lit c)) (list_ascii_of_string w)).

End Re.

(* ===================================================================== *)
(** ** Payloads, platform and effects *)
(* ===================================================================== *)

(** A node of a rich-text (ADF) document: its own text, if any, and its
    children.  Children that are not objects contribute nothing and are
    left out. *)
#[local] Unset Elimination Schemes.
Inductive adf : Type :=
| AdfNode (text : option string) (content : list adf).
#[local] Set Elimination Schemes.

(** A comment body: plain text or a rich-text document. *)
Inductive body : Type :=
| PlainBody (text : string)
| AdfBody (doc : adf).

Record Comment : Type := {
  c_body : option body;                 (* comment["body"] *)
  c_author : option string;             (* comment["author"]["displayName"] *)
}.

Record Fields : Type := {
  f_summary : option string;            (* fields["summary"] *)
  f_description : option string;        (* fields["description"] *)
}.

(** The ticket dict: the tracker's payload, to which the client adds the
    keys [discussions] and [discussion_summary]. *)
Record Ticket : Type := {
  key : option string;
  fields : option Fields;
  discussions : option (list Comment);
  discussion_summary : option string;
}.

(** What an HTTP request comes back with. *)
Inductive http_reply (A : Type) : Type :=
| Reply (payload : A)
    (* a 2xx response whose body decodes *)
| StatusError (str_e : string) (error_messages : string)
    (* [raise_for_status] raised; [error_messages] is the rendering of the
       error body's [errorMessages] *)
| Failure (str_e : string).
    (* any other exception, with its [str()] *)
Arguments Reply {A} payload.
Arguments StatusError {A} str_e error_messages.
Arguments Failure {A} str_e.

Inductive month : Type :=
| January | February | March | April | May | June
| July | August | September | October | November | December.

(** The fields of [datetime.now()] that the program prints. *)
Record date : Type := { year : nat; mon : month; day : nat }.

(** Everything the program takes from its surroundings. *)
Record Platform : Type := {
  path_of : string -> string;             (* str(Path(s)) *)
  path_div : string -> string -> string;  (* str(Path(p) / name) *)
  path_parent : string -> string;         (* str(Path(p).parent) *)
  set_list : list string -> list string;  (* list(set(xs)) *)
  now : date;                             (* datetime.now() *)
  tracker_issue : string -> http_reply Ticket;
                                          (* GET /rest/api/3/issue/{id} *)
  tracker_comments : string -> http_reply (option (list Comment));
                                          (* GET .../comment, its "comments" key *)
}.

(** [list(set(xs))] lists the distinct members of [xs], each once, in an
    order of the interpreter's choosing. *)
Definition set_list_lawful (f : list string -> list string) : Prop :=
  forall xs, NoDup (f xs) /\ (forall x, In x (f xs) <-> In x xs).

(** Observable actions, in program order. *)
Inductive event : Type :=
| HttpGet (url : string)
| Mkdir (path : string)                   (* mkdir(parents=True, exist_ok=True) *)
| WriteText (path content : string).      (* write_text(content, encoding="utf-8") *)

(** A computation that performs actions and then returns or raises. *)
Record io (A : Type) : Type := IO { trace : list event; outcome : res A }.
Arguments IO {A} trace outcome.
Arguments trace {A} i.
Arguments outcome {A} i.

#[global] Instance io_ret : MRet io := fun _ a => IO [] (Ok a).
#[global] Instance io_bind : MBind io := fun _ _ f m =>
  match outcome m with
  | Ok a => let m' := f a in IO (trace m ++ trace m') (outcome m')
  | Raise e => IO (trace m) (Raise e)
  end.

Definition emit (e : event) : io unit := IO [e] (Ok tt).
Definition raise {A} (e : exn) : io A := IO [] (Raise e).
Definition lift {A} (r : res A) : io A := IO [] r.

(** [try: m except Exception: handler]. *)
Definition try_except {A} (m : io A) (handler : exn -> io A) : io A :=
  match outcome m with
  | Ok _ => m
  | Raise e => let h := handler e in IO (trace m ++ trace h) (outcome h)
  end.

(** The file system as far as the program touches it: the directories
    made and the contents of the files written. *)
Record fs : Type := { dirs : gset string; files : gmap string string }.

Definition apply_event (e : event) (s : fs) : fs :=
  match e with
  | HttpGet _ => s
  | Mkdir p => {| dirs := {[ p ]} ∪ dirs s; files := files s |}
  | WriteText p c => {| dirs := dirs s; files := <[ p := c ]> (files s) |}
  end.

Definition replay (es : list event) (s : fs) : fs :=
  foldl (fun s e => apply_event e s) s es.

(** Running a computation on a file system. *)
Definition exec {A} (m : io A) (s : fs) : fs := replay (trace m) s.

(* ===================================================================== *)
(** ** jira_service.py *)
(* ===================================================================== *)

Module JiraService.
Import Py.

(** [class JiraService]: the configured base URL.  The credentials only
    go into the request headers. *)
Record JiraService : Type := { base_url : string }.

Section WithPlatform.
Context (pf : Platform) (self : JiraService).

(** [client.get(url, ...)] up to the decoded body. *)
Definition get {A} (url : string) (reply : http_reply A) : io (http_reply A) :=
  _ ← emit (HttpGet url);
  mret reply.

Definition fetch_ticket (ticket_id : string) : io Ticket :=
  reply ← get (cat [base_url self; "/rest/api/3/issue/"; ticket_id])
              (tracker_issue pf ticket_id);
  match reply with
  | Reply ticket => mret ticket
  | StatusError _ error_msg =>
      raise (ValueError (cat ["Failed to fetch ticket "; ticket_id; ": "; error_msg]))
  | Failure e =>
      raise (ValueError (cat ["Error fetching ticket: "; e]))
  end.

Definition get_ticket_comments (ticket_id : string) : io (list Comment) :=
  reply ← get (cat [base_url self; "/rest/api/3/issue/"; ticket_id; "/comment"])
              (tracker_comments pf ticket_id);
  match reply with
  | Reply data => mret (default [] data)
  | StatusError e _ | Failure e =>
      raise (ValueError (cat ["Failed to fetch comments: "; e]))
  end.

(** [extract_from_node]: the text parts of a node, depth first. *)
Fixpoint extract_from_node (node : adf) : list string :=
  match node with
  | AdfNode text content =>
      match text with Some t => [t] | None => [] end
      ++ concat (map extract_from_node content)
  end.

Definition _extract_text_from_adf (adf_content : adf) : string :=
  join " " (extract_from_node adf_content).

Definition discussion_point (comment : Comment) : list string :=
  let author := default "Unknown" (c_author comment) in
  let text :=
    match default (PlainBody "") (c_body comment) with
    | AdfBody doc => _extract_text_from_adf doc
    | PlainBody t => t
    end in
  if truthy (strip text) then [cat [author; ": "; strip text]] else [].

Definition _summarize_discussions (comments : list Comment) : string :=
  match comments with
  | [] => ""
  | _ => join (cat [nl; nl]) (concat (map discussion_point comments))
  end.

Definition get_ticket_with_discussions (ticket_id : string) : io Ticket :=
  ticket ← fetch_ticket ticket_id;
  try_except
    (comments ← get_ticket_comments ticket_id;
     mret {| key := key ticket; fields := fields ticket;
             discussions := Some comments;
             discussion_summary := Some (_summarize_discussions comments) |})
    (fun _ =>
       mret {| key := key ticket; fields := fields ticket;
               discussions := Some [];
               discussion_summary := Some "" |}).

End WithPlatform.
End JiraService.

(* ===================================================================== *)
(** ** test_generator.py: requirement extraction *)
(* ===================================================================== *)

Module TestGenerator.
Import Py Re.

(** [class TestScenario]. *)
Record TestScenario : Type := {
  scenario : string;
  given : list string;
  when_ : list string;
  then_ : list string;
}.

(** [Literal["low", "medium", "high"]]. *)
Inductive complexity : Type := low | medium | high.

Definition complexity_str (c : complexity) : string :=
  match c with low => "low" | medium => "medium" | high => "high" end.

(** The order low < medium < high. *)
Definition rank (c : complexity) : nat :=
  match c with low => 0 | medium => 1 | high => 2 end.

Definition newline : regex := One (Lit NL).
Definition spaces1 : regex := Rep true 1 Space.       (* \s+ *)
Definition spaces0 : regex := Rep true 0 Space.       (* \s* *)
Definition lazy_any : regex := Rep false 0 Dot.       (* .*? *)
Definition eol : regex := Alt newline AtEnd.          (* (?:\n|$) *)
Definition eop : regex := Alt (Cat newline newline) AtEnd.  (* (?:\n\n|$) *)

(** [r"given\s+(.*?)(?:\n|$).*?when\s+(.*?)(?:\n|$).*?then\s+(.*?)(?:\n|$)"] *)
Definition gwt_pattern : regex :=
  cats [ word "given"; spaces1; Group 1 lazy_any; eol; lazy_any;
         word "when"; spaces1; Group 2 lazy_any; eol; lazy_any;
         word "then"; spaces1; Group 3 lazy_any; eol ].

(** The seven patterns of [test_keywords], in list order. *)
Definition test_keywords : list regex :=
  [ (* r"test\s+case[s]?:?\s*(.*?)(?:\n\n|$)" *)
    cats [ word "test"; spaces1; word "case"; Opt (Set_ ["s"%char]);
           Opt (Lit ":"%char); spaces0; Group 1 lazy_any; eop ];
    (* r"scenario[s]?:?\s*(.*?)(?:\n\n|$)" *)
    cats [ word "scenario"; Opt (Set_ ["s"%char]); Opt (Lit ":"%char);
           spaces0; Group 1 lazy_any; eop ];
    (* r"edge\s+case[s]?:?\s*(.*?)(?:\n\n|$)" *)
    cats [ word "edge"; spaces1; word "case"; Opt (Set_ ["s"%char]);
           Opt (Lit ":"%char); spaces0; Group 1 lazy_any; eop ];
    (* r"acceptance\s+criteria:?\s*(.*?)(?:\n\n|$)" *)
    cats [ word "acceptance"; spaces1; word "criteria"; Opt (Lit ":"%char);
           spaces0; Group 1 lazy_any; eop ];
    (* r"should\s+(.*?)(?:\n|$)" *)
    cats [ word "should"; spaces1; Group 1 lazy_any; eol ];
    (* r"verify\s+(.*?)(?:\n|$)" *)
    cats [ word "verify"; spaces1; Group 1 lazy_any; eol ];
    (* r"ensure\s+(.*?)(?:\n|$)" *)
    cats [ word "ensure"; spaces1; Group 1 lazy_any; eol ] ].

(** [m.group(n).strip()]: an [AttributeError] when the group is [None]. *)
Definition group_strip (m : match_) (n : nat) : res string :=
  match group m n with
  | Some t => Ok (strip t)
  | None => Raise (AttributeError "'NoneType' object has no attribute 'strip'")
  end.

(** A [for] loop that appends to a list and may raise. *)
Fixpoint for_each {A B} (f : A -> res (list B)) (xs : list A) : res (list B) :=
  match xs with
  | [] => Ok []
  | x :: xs' =>
      ys ← f x;
      zs ← for_each f xs';
      Ok (ys ++ zs)
  end.

(** The body of the Given-When-Then loop of [_extract_test_scenarios]. *)
Definition gwt_scenario (summary : string) (m : match_) : res (list TestScenario) :=
  g ← group_strip m 1;
  w ← group_strip m 2;
  t ← group_strip m 3;
  Ok [ {| scenario := cat ["Scenario: "; summary];
          given := [g]; when_ := [w]; then_ := [t] |} ].

(** The body of the inner loop of [_extract_scenarios_from_discussions]. *)
Definition discussion_scenario (m : match_) : res (list TestScenario) :=
  scenario_text ← group_strip m 1;
  if truthy scenario_text && Nat.ltb 10 (len scenario_text) then
    Ok [ {| scenario := cat ["Scenario from discussion: "; slice_to 100 scenario_text];
            given := ["User is on the application"];
            when_ := [cat ["User performs: "; slice_to 150 scenario_text]];
            then_ := ["Expected behavior should match the discussion requirement"] |} ]
  else Ok [].

Definition _extract_scenarios_from_discussions
           (discussion_summary summary : string) : res (list TestScenario) :=
  for_each
    (fun pattern => for_each discussion_scenario (finditer pattern discussion_summary))
    test_keywords.

Definition fallback_scenario (summary : string) : TestScenario :=
  {| scenario := cat ["Test "; summary];
     given := ["User is on the application"];
     when_ := ["User performs the action described in ticket"];
     then_ := ["Expected behavior occurs as per ticket description"] |}.

Definition _extract_test_scenarios
           (description summary discussion_summary : string)
  : res (list TestScenario) :=
  let combined_text := cat [description; nl; nl; discussion_summary] in
  scenarios ← for_each (gwt_scenario summary) (finditer gwt_pattern combined_text);
  discussion_scenarios ←
    (if truthy discussion_summary
     then _extract_scenarios_from_discussions discussion_summary summary
     else Ok []);
  let scenarios := scenarios ++ discussion_scenarios in
  match scenarios with
  | [] => Ok [fallback_scenario summary]
  | _ => Ok scenarios
  end.

Definition _calculate_complexity
           (scenarios : list TestScenario) (description : string) : complexity :=
  let scenario_count := length scenarios in
  let desc_length := len description in
  if Nat.leb scenario_count 2 && Nat.ltb desc_length 500 then low
  else if Nat.leb scenario_count 5 && Nat.ltb desc_length 1500 then medium
  else high.


(* =================================================================== *)
(** *** Rendering *)
(* =================================================================== *)

(** The analysis dict returned by [analyze_requirements]. *)
Record Analysis : Type := {
  an_ticket_key : string;
  an_summary : string;
  an_discussion_summary : string;
  an_test_scenarios : list TestScenario;
  an_estimated_test_count : nat;
  an_complexity : complexity;
}.

(** A step dict of a manual test plan. *)
Record Step : Type := {
  step_num : nat;
  action : string;
  expected : string;
  type_ : string;
}.

(** A step dict and a scenario dict of the supplementary plans. *)
Record CheckStep : Type := { cs_action : string; cs_expected : string }.

Record AdditionalScenario : Type := {
  a_name : string;
  a_objective : string;
  a_steps : list CheckStep;
  a_type : string;
}.

(** Values of the result dicts handed back to the caller. *)
Inductive value : Type :=
| VBool (b : bool)
| VInt (n : nat)
| VStr (s : string)
| VList (l : list string).

Definition dict : Type := list (string * value).

(** [class TestGeneratorService]; [output_dir] is read from the
    environment when the service is built. *)
Record TestGeneratorService : Type := { output_dir : string }.

(** [enumerate(xs, start)]. *)
Definition enumerate {A} (start : nat) (xs : list A) : list (nat * A) :=
  combine (seq start (length xs)) xs.

(** Newline-terminated lines, the shape of the triple-quoted templates. *)
Definition lines (ls : list string) : string :=
  cat (map (fun l => l +:+ nl) ls).

Definition rule : string := times "=" 80.        (* '='*80 *)
Definition thin_rule : string := times "─" 80.   (* '─'*80 *)

Definition write_text (path content : string) : io unit :=
  emit (WriteText path content).

Definition mkdir (path : string) : io unit := emit (Mkdir path).

(** [ticket["key"]]. *)
Definition item_key (ticket : Ticket) : res string :=
  match key ticket with
  | Some k => Ok k
  | None => Raise (KeyError "key")
  end.

(** [a or b] on an optional string. *)
Definition or_else (a : option string) (b : string) : string :=
  match a with
  | Some s => if truthy s then s else b
  | None => b
  end.

Definition analyze_requirements (ticket : Ticket) : res Analysis :=
  let fields := default {| f_summary := None; f_description := None |} (fields ticket) in
  let description := default "" (f_description fields) in
  let summary := default "" (f_summary fields) in
  let discussion_summary := default "" (discussion_summary ticket) in
  scenarios ← _extract_test_scenarios description summary discussion_summary;
  let complexity := _calculate_complexity scenarios description in
  ticket_key ← item_key ticket;
  mret {| an_ticket_key := ticket_key;
          an_summary := summary;
          an_discussion_summary := discussion_summary;
          an_test_scenarios := scenarios;
          an_estimated_test_count := length scenarios;
          an_complexity := complexity |}.

Definition _generate_feature_file (analysis : Analysis) : string :=
  let lines :=
    [ cat ["Feature: "; an_summary analysis];
      "  As a tester";
      cat ["  I want to test "; an_ticket_key analysis];
      "  So that the functionality works as expected";
      "" ] in
  let lines :=
    if truthy (an_discussion_summary analysis) then
      let discussion_lines := split_on (cat [nl; nl]) (an_discussion_summary analysis) in
      lines
      ++ ["  # Additional context from discussions:"]
      ++ concat (map (fun disc_line =>
                        if truthy (strip disc_line)
                        then [cat ["  # "; slice_to 100 (strip disc_line)]]
                        else [])
                     (firstn 3 discussion_lines))
      ++ [""]
    else lines in
  let test_scenarios := an_test_scenarios analysis in
  let lines :=
    lines
    ++ concat (map (fun '(i, scenario) =>
                      [cat ["  Scenario: "; TestGenerator.scenario scenario]]
                      ++ map (fun step => cat ["    Given "; step]) (given scenario)
                      ++ map (fun step => cat ["    When "; step]) (when_ scenario)
                      ++ map (fun step => cat ["    Then "; step]) (then_ scenario)
                      ++ (if Nat.ltb i (length test_scenarios - 1) then [""] else []))
                   (enumerate 0 test_scenarios)) in
  join nl lines.

Definition _generate_testng_xml (analysis : Analysis) : string :=
  let class_name := replace_all "-" "_" (an_ticket_key analysis) in
  lines
    [ cat ["<?xml version="; dq; "1.0"; dq; " encoding="; dq; "UTF-8"; dq; "?>"];
      cat ["<!DOCTYPE suite SYSTEM "; dq; "http://testng.org/testng-1.0.dtd"; dq; ">"];
      cat ["<suite name="; dq; an_ticket_key analysis; " Test Suite"; dq; " parallel="; dq; "false"; dq; ">"];
      cat ["    <test name="; dq; an_ticket_key analysis; " Tests"; dq; ">"];
      "        <classes>";
      cat ["            <class name="; dq; "runners."; class_name; "TestRunner"; dq; "/>"];
      "        </classes>";
      "    </test>";
      "</suite>" ].

Definition _generate_readme (analysis : Analysis) (language : string) : string :=
  let scenarios_text :=
    join (cat [nl; nl])
      (map (fun '(i, s) =>
              join nl
                [ cat ["### "; str_of_nat (i + 1); ". "; scenario s];
                  cat ["- **Given**: "; join ", " (given s)];
                  cat ["- **When**: "; join ", " (when_ s)];
                  cat ["- **Then**: "; join ", " (then_ s)] ])
           (enumerate 0 (an_test_scenarios analysis))) in
  let setup_instructions :=
    if String.eqb language "java" then
      join nl
        [ "1. Install Java JDK 11 or higher";
          "2. Install Maven";
          "3. Run: `mvn clean install`";
          "4. Execute tests: `mvn test`" ]
    else
      join nl
        [ "1. Install Python 3.8 or higher";
          "2. Install dependencies: `pip install -r requirements.txt`";
          "3. Run tests: `behave`" ] in
  lines
    [ cat ["# Test Automation for "; an_ticket_key analysis];
      "";
      "## Summary";
      an_summary analysis;
      "";
      "## Test Information";
      cat ["- **Ticket**: "; an_ticket_key analysis];
      cat ["- **Estimated Test Count**: "; str_of_nat (an_estimated_test_count analysis)];
      cat ["- **Complexity**: "; complexity_str (an_complexity analysis)];
      cat ["- **Language**: "; language];
      "- **Framework**: Selenium + TestNG + Cucumber";
      "";
      "## Setup Instructions";
      "";
      cat ["### "; title language; " Setup"];
      "";
      setup_instructions;
      "";
      "## Test Scenarios";
      "";
      scenarios_text;
      "";
      "## Generated Files";
      "- Feature file with Gherkin scenarios";
      "- Step definition implementations";
      "- Test runner configuration";
      "- TestNG XML suite configuration";
      "- Dependencies configuration";
      "";
      "## Next Steps";
      "1. Review generated test scenarios";
      "2. Implement step definitions with actual test logic";
      "3. Add page objects for UI elements";
      "4. Configure test data and environments";
      "5. Run tests and review results";
      "";
      "## Notes";
      cat ["- Auto-generated test suite based on JIRA ticket "; an_ticket_key analysis];
      "- Review and enhance test logic as needed";
      "- Add assertions specific to your application";
      "- Integrate with CI/CD pipeline" ].

Definition _expand_action_step (action : string) : string :=
  if Nat.ltb (len action) 50
  then cat [action; " (Provide detailed steps as applicable)"]
  else action.

Definition _format_description (description : string) : string :=
  if negb (truthy description) then
    "No detailed description available. Refer to ticket summary."
  else
    let formatted := strip (replace_all (String CR nl) nl description) in
    if Nat.ltb 500 (len formatted)
    then cat [slice_to 500 formatted; "..."; nl; "[See full description in JIRA ticket]"]
    else formatted.

Definition _format_discussion_context (discussion_summary : string) : string :=
  if negb (truthy discussion_summary) then
    "No additional discussions available."
  else
    let discussions := split_on (cat [nl; nl]) discussion_summary in
    let formatted_discussions :=
      concat (map (fun disc =>
                     if truthy (strip disc) then [cat ["  - "; strip disc]] else [])
                  (firstn 5 discussions)) in
    match formatted_discussions with
    | [] => "No significant discussion points."
    | _ => join nl formatted_discussions
    end.

(** [strftime("%B %d, %Y")]. *)
Definition month_name (m : month) : string :=
  match m with
  | January => "January" | February => "February" | March => "March"
  | April => "April" | May => "May" | June => "June"
  | July => "July" | August => "August" | September => "September"
  | October => "October" | November => "November" | December => "December"
  end.

Definition two_digits (n : nat) : string :=
  if Nat.ltb n 10 then cat ["0"; str_of_nat n] else str_of_nat n.

Definition strftime_B_d_Y (d : date) : string :=
  cat [month_name (mon d); " "; two_digits (day d); ", "; str_of_nat (year d)].

(** The fixed list [additional_scenarios]. *)
Definition check (a e : string) : CheckStep := {| cs_action := a; cs_expected := e |}.

Definition additional_scenarios : list AdditionalScenario :=
  [ {| a_name := "Negative Test - Invalid Input Data";
       a_objective := "Verify system handles invalid input gracefully";
       a_steps :=
         [ check "Prepare invalid test data (empty, null, special characters)" "Test data is prepared";
           check "Attempt to perform the operation with invalid data" "System rejects invalid input";
           check "Verify appropriate error message is displayed" "Clear error message explains the validation failure";
           check "Verify system state remains unchanged" "No data is corrupted or modified" ];
       a_type := "Negative" |};
    {| a_name := "Boundary Test - Minimum Values";
       a_objective := "Verify system behavior at minimum boundary conditions";
       a_steps :=
         [ check "Identify minimum acceptable values from requirements" "Boundaries are documented";
           check "Test with minimum valid values" "Operation succeeds with minimum values";
           check "Test with values below minimum (if applicable)" "System rejects or handles appropriately";
           check "Verify data integrity at boundaries" "Data is stored and displayed correctly" ];
       a_type := "Boundary" |};
    {| a_name := "Boundary Test - Maximum Values";
       a_objective := "Verify system behavior at maximum boundary conditions";
       a_steps :=
         [ check "Identify maximum acceptable values from requirements" "Boundaries are documented";
           check "Test with maximum valid values" "Operation succeeds with maximum values";
           check "Test with values above maximum (if applicable)" "System rejects or handles appropriately";
           check "Verify performance and response time" "System performs within acceptable limits" ];
       a_type := "Boundary" |};
    {| a_name := "Security Test - Access Control";
       a_objective := "Verify proper authorization and access controls";
       a_steps :=
         [ check "Attempt operation with unauthorized user" "Access is denied";
           check "Verify appropriate error/permission message" "User receives clear permission denied message";
           check "Test with user having partial permissions" "Only authorized actions are allowed";
           check "Verify audit logs capture access attempts" "Security events are logged" ];
       a_type := "Security" |};
    {| a_name := "Performance Test - Response Time";
       a_objective := "Verify system performs within acceptable time limits";
       a_steps :=
         [ check "Execute operation with normal data load" "Baseline performance is established";
           check "Measure response time for the operation" "Response time is within SLA requirements";
           check "Test with increased data volume" "Performance degrades gracefully";
           check "Verify no memory leaks or resource issues" "Resources are properly managed" ];
       a_type := "Performance" |};
    {| a_name := "Usability Test - User Experience";
       a_objective := "Verify user interface is intuitive and accessible";
       a_steps :=
         [ check "Navigate to the feature using normal user flow" "Navigation is intuitive";
           check "Verify all UI elements are properly labeled" "Labels are clear and descriptive";
           check "Test keyboard navigation and accessibility" "Feature is keyboard accessible";
           check "Verify error messages are user-friendly" "Messages guide user to resolution" ];
       a_type := "Usability" |};
    {| a_name := "Integration Test - External Dependencies";
       a_objective := "Verify proper integration with dependent systems";
       a_steps :=
         [ check "Identify external system dependencies" "Dependencies are documented";
           check "Test with all dependencies available" "Integration works correctly";
           check "Test with dependency unavailable/timeout" "System handles failures gracefully";
           check "Verify error handling and retry logic" "Appropriate error handling is in place" ];
       a_type := "Integration" |};
    {| a_name := "Data Validation Test - Input Constraints";
       a_objective := "Verify all input validations are properly enforced";
       a_steps :=
         [ check "Test with required fields missing" "Validation errors are shown";
           check "Test with incorrect data types" "Type validation works correctly";
           check "Test with data exceeding length limits" "Length constraints are enforced";
           check "Test with SQL injection and XSS attempts" "Input sanitization prevents attacks" ];
       a_type := "Validation" |} ].

Section WithPlatform.
Context (pf : Platform) (self : TestGeneratorService).

Definition _get_current_date : string := strftime_B_d_Y (now pf).

Definition _generate_java_tests (analysis : Analysis) (output_dir : string)
  : io (list string) :=
  let class_name := replace_all "-" "_" (an_ticket_key analysis) in
  let step_defs :=
    lines
      [ "package stepdefinitions;";
        "";
        "import io.cucumber.java.en.*;";
        "import io.cucumber.java.After;";
        "import org.openqa.selenium.WebDriver;";
        "import org.openqa.selenium.chrome.ChromeDriver;";
        "import org.testng.Assert;";
        "";
        cat ["public class "; class_name; "StepDefinitions {"];
        "    private WebDriver driver;";
        "";
        cat ["    @Given("; dq; "{string}"; dq; ")"];
        "    public void given_step(String step) {";
        cat ["        System.out.println("; dq; "Given: "; dq; " + step);"];
        "        driver = new ChromeDriver();";
        "        // TODO: Implement step logic";
        "    }";
        "";
        cat ["    @When("; dq; "{string}"; dq; ")"];
        "    public void when_step(String step) {";
        cat ["        System.out.println("; dq; "When: "; dq; " + step);"];
        "        // TODO: Implement step logic";
        "    }";
        "";
        cat ["    @Then("; dq; "{string}"; dq; ")"];
        "    public void then_step(String step) {";
        cat ["        System.out.println("; dq; "Then: "; dq; " + step);"];
        "        // TODO: Implement assertion logic";
        cat ["        Assert.assertTrue(true, "; dq; "Placeholder assertion"; dq; ");"];
        "    }";
        "";
        "    @After";
        "    public void tearDown() {";
        "        if (driver != null) {";
        "            driver.quit();";
        "        }";
        "    }";
        "}" ] in
  let step_path := path_div pf output_dir "StepDefinitions.java" in
  _ ← write_text step_path step_defs;
  let runner :=
    lines
      [ "package runners;";
        "";
        "import io.cucumber.testng.AbstractTestNGCucumberTests;";
        "import io.cucumber.testng.CucumberOptions;";
        "";
        "@CucumberOptions(";
        cat ["    features = "; dq; "src/test/resources/features/"; an_ticket_key analysis; ".feature"; dq; ","];
        cat ["    glue = {"; dq; "stepdefinitions"; dq; "},"];
        "    plugin = {";
        cat ["        "; dq; "pretty"; dq; ","];
        cat ["        "; dq; "html:target/cucumber-reports/cucumber.html"; dq; ","];
        cat ["        "; dq; "json:target/cucumber-reports/cucumber.json"; dq];
        "    },";
        "    monochrome = true";
        ")";
        cat ["public class "; class_name; "TestRunner extends AbstractTestNGCucumberTests {"];
        "}" ] in
  let runner_path := path_div pf output_dir "TestRunner.java" in
  _ ← write_text runner_path runner;
  let pom :=
    lines
      [ cat ["<?xml version="; dq; "1.0"; dq; " encoding="; dq; "UTF-8"; dq; "?>"];
        cat ["<project xmlns="; dq; "http://maven.apache.org/POM/4.0.0"; dq];
        cat ["         xmlns:xsi="; dq; "http://www.w3.org/2001/XMLSchema-instance"; dq];
        cat ["         xsi:schemaLocation="; dq; "http://maven.apache.org/POM/4.0.0"];
        cat ["         http://maven.apache.org/xsd/maven-4.0.0.xsd"; dq; ">"];
        "    <modelVersion>4.0.0</modelVersion>";
        "";
        "    <groupId>com.testautomation</groupId>";
        cat ["    <artifactId>"; lower (an_ticket_key analysis); "</artifactId>"];
        "    <version>1.0-SNAPSHOT</version>";
        "";
        "    <properties>";
        "        <maven.compiler.source>11</maven.compiler.source>";
        "        <maven.compiler.target>11</maven.compiler.target>";
        "        <selenium.version>4.15.0</selenium.version>";
        "        <cucumber.version>7.14.0</cucumber.version>";
        "        <testng.version>7.8.0</testng.version>";
        "    </properties>";
        "";
        "    <dependencies>";
        "        <dependency>";
        "            <groupId>org.seleniumhq.selenium</groupId>";
        "            <artifactId>selenium-java</artifactId>";
        "            <version>${selenium.version}</version>";
        "        </dependency>";
        "        <dependency>";
        "            <groupId>io.cucumber</groupId>";
        "            <artifactId>cucumber-java</artifactId>";
        "            <version>${cucumber.version}</version>";
        "        </dependency>";
        "        <dependency>";
        "            <groupId>io.cucumber</groupId>";
        "            <artifactId>cucumber-testng</artifactId>";
        "            <version>${cucumber.version}</version>";
        "        </dependency>";
        "        <dependency>";
        "            <groupId>org.testng</groupId>";
        "            <artifactId>testng</artifactId>";
        "            <version>${testng.version}</version>";
        "        </dependency>";
        "    </dependencies>";
        "</project>" ] in
  let pom_path := path_div pf output_dir "pom.xml" in
  _ ← write_text pom_path pom;
  mret [step_path; runner_path; pom_path].

Definition _generate_python_tests (analysis : Analysis) (output_dir : string)
  : io (list string) :=
  let step_defs :=
    lines
      [ "from behave import given, when, then";
        "from selenium import webdriver";
        "from selenium.webdriver.chrome.service import Service";
        "from webdriver_manager.chrome import ChromeDriverManager";
        "";
        "@given(u'{step}')";
        "def step_given(context, step):";
        cat ["    print(f"; dq; "Given: {step}"; dq; ")"];
        "    context.driver = webdriver.Chrome(service=Service(ChromeDriverManager().install()))";
        "    # TODO: Implement step logic";
        "";
        "@when(u'{step}')";
        "def step_when(context, step):";
        cat ["    print(f"; dq; "When: {step}"; dq; ")"];
        "    # TODO: Implement step logic";
        "";
        "@then(u'{step}')";
        "def step_then(context, step):";
        cat ["    print(f"; dq; "Then: {step}"; dq; ")"];
        "    # TODO: Implement assertion logic";
        cat ["    assert True, "; dq; "Placeholder assertion"; dq];
        "";
        "def after_scenario(context, scenario):";
        "    if hasattr(context, 'driver'):";
        "        context.driver.quit()" ] in
  let step_path := path_div pf output_dir "step_definitions.py" in
  _ ← write_text step_path step_defs;
  let requirements :=
    lines
      [ "selenium==4.15.0";
        "behave==1.2.6";
        "webdriver-manager==4.0.1";
        "pytest==7.4.3";
        "allure-behave==2.13.2" ] in
  let req_path := path_div pf output_dir "requirements.txt" in
  _ ← write_text req_path requirements;
  mret [step_path; req_path].

Definition _extract_test_data_requirements
           (test_steps : list Step) (description : string) : list string :=
  let data_requirements :=
    [ "Valid user credentials for test execution";
      "Test environment access configuration";
      "Sample data matching requirements specifications" ] in
  let data_keywords :=
    [ "email"; "username"; "password"; "name"; "address";
      "phone"; "date"; "number"; "id"; "code" ] in
  let description_lower := if truthy description then lower description else "" in
  let data_requirements :=
    data_requirements
    ++ concat (map (fun keyword =>
                      if contains keyword description_lower
                      then [cat ["Valid test "; keyword; " data"]]
                      else [])
                   data_keywords) in
  let data_requirements :=
    data_requirements
    ++ concat (map (fun step =>
                      let action_lower := lower (action step) in
                      if contains "data" action_lower
                         || contains "value" action_lower
                         || contains "input" action_lower
                      then [cat ["Data for: "; slice_to 60 (action step)]]
                      else [])
                   test_steps) in
  firstn 10 (set_list pf data_requirements).

Definition _create_manual_test_plan
           (ticket_key : string) (test_number : nat) (scenario : TestScenario)
           (summary description discussion_summary : string) (total_tests : nat)
  : string :=
  let scenario_name := TestGenerator.scenario scenario in
  let given_steps := given scenario in
  let when_steps := when_ scenario in
  let then_steps := then_ scenario in
  let step_number := 1 in
  let test_steps :=
    map (fun '(n, given) =>
           {| step_num := n;
              action := cat ["Verify precondition: "; given];
              expected := "Precondition is met and ready for testing";
              type_ := "Precondition" |})
        (enumerate step_number given_steps) in
  let step_number := step_number + length given_steps in
  let test_steps :=
    test_steps
    ++ map (fun '(n, when) =>
              {| step_num := n;
                 action := _expand_action_step when;
                 expected := "Action completes without errors";
                 type_ := "Action" |})
           (enumerate step_number when_steps) in
  let step_number := step_number + length when_steps in
  let test_steps :=
    test_steps
    ++ map (fun '(n, then') =>
              {| step_num := n;
                 action := cat ["Verify: "; then'];
                 expected := then';
                 type_ := "Validation" |})
           (enumerate step_number then_steps) in
  let step_number := step_number + length then_steps in
  let test_steps :=
    test_steps
    ++ [ {| step_num := step_number;
            action := "Clean up test data and restore initial state";
            expected := "System returns to original state";
            type_ := "Cleanup" |} ] in
  let content :=
    lines
      [ rule;
        "MANUAL TEST PLAN";
        rule;
        "";
        cat ["TICKET ID:           "; ticket_key];
        cat ["TEST ID:             "; ticket_key; "_Test"; str_of_nat test_number];
        cat ["TEST NUMBER:         "; str_of_nat test_number; " of "; str_of_nat total_tests];
        cat ["TEST NAME:           "; scenario_name];
        cat ["CREATED DATE:        "; _get_current_date];
        "TEST TYPE:           Functional Test";
        "PRIORITY:            High";
        "AUTOMATION:          Planned";
        "";
        rule;
        "TEST SUMMARY";
        rule;
        summary;
        "";
        rule;
        "TEST OBJECTIVE";
        rule;
        scenario_name;
        "";
        cat ["This test validates the functionality described in "; ticket_key; " ensuring that the"];
        "system behaves as expected according to the requirements and acceptance criteria.";
        "";
        rule;
        "REQUIREMENTS REFERENCE";
        rule;
        "Ticket Description:";
        _format_description description;
        "" ] in
  let content :=
    if truthy discussion_summary then
      content +:+
      lines
        [ "Additional Context from Discussions:";
          _format_discussion_context discussion_summary;
          "" ]
    else content in
  let content :=
    content +:+
    lines
      [ rule;
        "TEST PRECONDITIONS";
        rule ] in
  let precondition_steps :=
    List.filter (fun s => String.eqb (type_ s) "Precondition") test_steps in
  let content :=
    match precondition_steps with
    | _ :: _ =>
        content +:+
        cat (map (fun step =>
                    cat [str_of_nat (step_num step); ". "; action step; nl])
                 precondition_steps)
    | [] =>
        content
        +:+ cat ["1. Application is accessible and running"; nl]
        +:+ cat ["2. Test user has appropriate access rights"; nl]
        +:+ cat ["3. Test environment is properly configured"; nl]
    end in
  let content :=
    content +:+
    lines
      [ "";
        rule;
        "TEST STEPS";
        rule;
        "" ] in
  let content :=
    content +:+
    cat (map (fun step =>
                lines
                  [ cat ["Step "; str_of_nat (step_num step); ": ["; type_ step; "]"];
                    thin_rule;
                    "Action:";
                    cat ["  "; action step];
                    "";
                    "Expected Result:";
                    cat ["  "; expected step];
                    "";
                    "Actual Result:";
                    "  [ TO BE FILLED DURING EXECUTION ]";
                    "";
                    "Status: [ PASS / FAIL / BLOCKED ]";
                    "";
                    rule;
                    "" ])
             test_steps) in
  let content :=
    content +:+
    lines
      [ rule;
        "TEST DATA REQUIREMENTS";
        rule ] in
  let test_data := _extract_test_data_requirements test_steps description in
  let content :=
    content +:+
    cat (map (fun data_item => cat ["- "; data_item; nl]) test_data) in
  let content :=
    content +:+
    lines
      [ "";
        rule;
        "EXPECTED RESULTS SUMMARY";
        rule ] in
  let validation_steps :=
    List.filter (fun s => String.eqb (type_ s) "Validation") test_steps in
  let content :=
    content +:+
    cat (map (fun '(idx, step) => cat [str_of_nat idx; ". "; expected step; nl])
             (enumerate 1 validation_steps)) in
  content +:+
  lines
    [ "";
      rule;
      "PASS/FAIL CRITERIA";
      rule;
      "PASS: All test steps execute successfully and all expected results are observed";
      "FAIL: Any test step fails or expected result is not observed";
      "BLOCKED: Test cannot be executed due to environment or dependency issues";
      "";
      rule;
      "NOTES AND OBSERVATIONS";
      rule;
      "[ TO BE FILLED DURING EXECUTION ]";
      "";
      "Tester Name:     _____________________";
      "Test Date:       _____________________";
      "Test Duration:   _____________________";
      "Environment:     _____________________";
      "Build/Version:   _____________________";
      "";
      "Final Status:    [ PASS / FAIL / BLOCKED ]";
      "";
      rule;
      "DEFECTS FOUND";
      rule;
      "Defect ID | Severity | Description | Status";
      thin_rule;
      "[ TO BE FILLED IF DEFECTS ARE FOUND ]";
      "";
      rule;
      cat ["END OF TEST PLAN - "; ticket_key; "_Test"; str_of_nat test_number];
      rule ].

Definition _create_additional_test_plan
           (ticket_key : string) (test_number : nat) (scenario : AdditionalScenario)
           (description discussion_summary : string) : string :=
  let content :=
    lines
      [ rule;
        cat ["MANUAL TEST PLAN - "; upper (a_type scenario); " TEST"];
        rule;
        "";
        cat ["TICKET ID:           "; ticket_key];
        cat ["TEST ID:             "; ticket_key; "_Test"; str_of_nat test_number];
        cat ["TEST NUMBER:         "; str_of_nat test_number];
        cat ["TEST NAME:           "; a_name scenario];
        cat ["CREATED DATE:        "; _get_current_date];
        cat ["TEST TYPE:           "; a_type scenario; " Test"];
        "PRIORITY:            High";
        "AUTOMATION:          Planned";
        "";
        rule;
        "TEST OBJECTIVE";
        rule;
        a_objective scenario;
        "";
        cat ["This test ensures comprehensive coverage by validating "; lower (a_type scenario); " scenarios"];
        cat ["that complement the functional requirements specified in "; ticket_key; "."];
        "";
        rule;
        "REQUIREMENTS REFERENCE";
        rule;
        cat ["Based on ticket: "; ticket_key];
        "";
        _format_description description;
        "";
        rule;
        "TEST PRECONDITIONS";
        rule;
        cat ["1. All functional tests for "; ticket_key; " have been reviewed"];
        "2. Test environment is stable and accessible";
        "3. Test data is prepared according to test type requirements";
        "4. Required user accounts and permissions are configured";
        "";
        rule;
        "TEST STEPS";
        rule;
        "" ] in
  let content :=
    content +:+
    cat (map (fun '(idx, step) =>
                lines
                  [ cat ["Step "; str_of_nat idx; ":"];
                    thin_rule;
                    "Action:";
                    cat ["  "; cs_action step];
                    "";
                    "Expected Result:";
                    cat ["  "; cs_expected step];
                    "";
                    "Actual Result:";
                    "  [ TO BE FILLED DURING EXECUTION ]";
                    "";
                    "Status: [ PASS / FAIL / BLOCKED ]";
                    "";
                    rule;
                    "" ])
             (enumerate 1 (a_steps scenario))) in
  content +:+
  lines
    [ rule;
      "PASS/FAIL CRITERIA";
      rule;
      cat ["PASS: All validation points pass and system behaves according to "; lower (a_type scenario); " test requirements"];
      "FAIL: Any expected behavior is not observed or system behaves incorrectly";
      "BLOCKED: Test cannot be completed due to dependencies or environment issues";
      "";
      rule;
      "NOTES AND OBSERVATIONS";
      rule;
      "[ TO BE FILLED DURING EXECUTION ]";
      "";
      cat ["This "; lower (a_type scenario); " test is critical for ensuring 100% test coverage and"];
      cat ["should be executed as part of the comprehensive test suite for "; ticket_key; "."];
      "";
      "Tester Name:     _____________________";
      "Test Date:       _____________________";
      "Environment:     _____________________";
      "Build/Version:   _____________________";
      "";
      "Final Status:    [ PASS / FAIL / BLOCKED ]";
      "";
      rule;
      cat ["END OF TEST PLAN - "; ticket_key; "_Test"; str_of_nat test_number];
      rule ].

Definition _generate_additional_test_cases
           (ticket_key description discussion_summary : string) (starting_index : nat)
  : list string :=
  map (fun '(current_index, scenario) =>
         _create_additional_test_plan
           ticket_key current_index scenario description discussion_summary)
      (enumerate starting_index additional_scenarios).

Definition _generate_manual_test_plans
           (ticket : Ticket) (analysis : Analysis) (output_dir : string)
  : io (list string) :=
  let ticket_key := an_ticket_key analysis in
  let fields := default {| f_summary := None; f_description := None |} (fields ticket) in
  let description := default "" (f_description fields) in
  let summary := an_summary analysis in
  let discussion_summary := an_discussion_summary analysis in
  let test_scenarios := an_test_scenarios analysis in
  generated_files ←
    mapM (fun '(idx, scenario) =>
            let test_plan_content :=
              _create_manual_test_plan
                ticket_key idx scenario summary description discussion_summary
                (length test_scenarios) in
            let filename := cat [ticket_key; "_Test"; str_of_nat idx; ".txt"] in
            let file_path := path_div pf output_dir filename in
            _ ← write_text file_path test_plan_content;
            mret file_path)
         (enumerate 1 test_scenarios);
  let additional_tests :=
    _generate_additional_test_cases
      ticket_key description discussion_summary (length test_scenarios + 1) in
  more_files ←
    mapM (fun '(idx, test_content) =>
            let filename := cat [ticket_key; "_Test"; str_of_nat idx; ".txt"] in
            let file_path := path_div pf output_dir filename in
            _ ← write_text file_path test_content;
            mret file_path)
         (enumerate (length test_scenarios + 1) additional_tests);
  mret (generated_files ++ more_files).

Definition generate_tests
           (ticket : Ticket) (language : string) (output_path : option string)
  : io dict :=
  analysis ← lift (analyze_requirements ticket);
  ticket_key ← lift (item_key ticket);
  let output_directory :=
    path_div pf (path_of pf (or_else output_path (output_dir self))) ticket_key in
  _ ← mkdir output_directory;
  let feature_content := _generate_feature_file analysis in
  let feature_path := path_div pf output_directory (cat [ticket_key; ".feature"]) in
  _ ← write_text feature_path feature_content;
  let generated_files := [feature_path] in
  language_files ←
    (if String.eqb language "java"
     then _generate_java_tests analysis output_directory
     else _generate_python_tests analysis output_directory);
  let generated_files := generated_files ++ language_files in
  let testng_content := _generate_testng_xml analysis in
  let testng_path := path_div pf output_directory "testng.xml" in
  _ ← write_text testng_path testng_content;
  let generated_files := generated_files ++ [testng_path] in
  let readme_content := _generate_readme analysis language in
  let readme_path := path_div pf output_directory "README.md" in
  _ ← write_text readme_path readme_content;
  let generated_files := generated_files ++ [readme_path] in
  manual_test_files ← _generate_manual_test_plans ticket analysis output_directory;
  let generated_files := generated_files ++ manual_test_files in
  mret [ ("success", VBool true);
         ("files", VList generated_files);
         ("message",
          VStr (cat ["Generated "; str_of_nat (length generated_files);
                     " files for "; ticket_key])) ].

Definition generate_gherkin_features
           (ticket : Ticket) (output_path : option string) : io dict :=
  analysis ← lift (analyze_requirements ticket);
  let feature_content := _generate_feature_file analysis in
  ticket_key ← lift (item_key ticket);
  if truthy (default "" output_path) then
    let feature_path :=
      path_div pf (path_of pf (default "" output_path)) (cat [ticket_key; ".feature"]) in
    _ ← mkdir (path_parent pf feature_path);
    _ ← write_text feature_path feature_content;
    mret [ ("success", VBool true);
           ("file", VStr feature_path);
           ("content", VStr feature_content) ]
  else
    mret [ ("success", VBool true);
           ("file", VStr (cat [ticket_key; ".feature"]));
           ("content", VStr feature_content) ].

End WithPlatform.

End TestGenerator.

(* ===================================================================== *)
(** ** server.py: the tool facade *)
(* ===================================================================== *)

Module Server.
Import Py JiraService TestGenerator.

Section WithPlatform.
Context (pf : Platform)
        (jira_service : JiraService.JiraService)
        (test_generator : TestGeneratorService).

Definition fetch_jira_ticket (ticket_id : string) : io Ticket :=
  get_ticket_with_discussions pf jira_service ticket_id.

Definition analyze_ticket_requirements (ticket_id : string) : io Analysis :=
  ticket ← get_ticket_with_discussions pf jira_service ticket_id;
  lift (analyze_requirements ticket).

Definition generate_test_scripts
           (ticket_id language : string) (output_path : option string) : io dict :=
  ticket ← get_ticket_with_discussions pf jira_service ticket_id;
  if negb (existsb (String.eqb language) ["java"; "python"]) then
    mret [ ("success", VBool false);
           ("message",
            VStr (cat ["Unsupported language: "; language;
                       ". Use 'java' or 'python'"])) ]
  else generate_tests pf test_generator ticket language output_path.

Definition generate_gherkin_features
           (ticket_id : string) (output_path : option string) : io dict :=
  ticket ← get_ticket_with_discussions pf jira_service ticket_id;
  TestGenerator.generate_gherkin_features pf ticket output_path.

Definition generate_manual_test_plans
           (ticket_id : string) (output_path : option string) : io dict :=
  ticket ← get_ticket_with_discussions pf jira_service ticket_id;
  analysis ← lift (analyze_requirements ticket);
  let output_dir :=
    path_div pf (path_of pf (or_else output_path (output_dir test_generator)))
             ticket_id in
  _ ← mkdir output_dir;
  test_plan_files ← _generate_manual_test_plans pf ticket analysis output_dir;
  mret [ ("success", VBool true);
         ("files", VList test_plan_files);
         ("message",
          VStr (cat ["Generated "; str_of_nat (length test_plan_files);
                     " manual test plan files for "; ticket_id]));
         ("test_count", VInt (length test_plan_files)) ].

End WithPlatform.
End Server.

(* ===================================================================== *)
(** ** A sample platform and sample payloads *)
(* ===================================================================== *)

Module Sample.
Import Py TestGenerator.

(** First occurrences, in order: one lawful choice for [list(set(xs))]. *)
Fixpoint first_occurrences (xs : list string) : list string :=
  match xs with
  | [] => []
  | x :: xs' =>
      x :: List.filter (fun y => negb (String.eqb x y)) (first_occurrences xs')
  end.

(** The text before the last slash. *)
Fixpoint dirname (p : string) : string :=
  match p with
  | EmptyString => EmptyString
  | String c p' =>
      if contains "/" p' then String c (dirname p') else EmptyString
  end.

Definition description3 : string :=
  cat [ "Given user is logged in"; nl;
        "When user clicks submit"; nl;
        "Then order is placed" ].

Definition ticket1 : Ticket :=
  {| key := Some "PROJ-1";
     fields := Some {| f_summary := Some "Login"; f_description := Some description3 |};
     discussions := None;
     discussion_summary := None |}.

Definition platform_on (today : date) (issue : http_reply Ticket)
           (comments : http_reply (option (list Comment))) : Platform :=
  {| path_of := fun s => s;
     path_div := fun p name => cat [p; "/"; name];
     path_parent := dirname;
     set_list := first_occurrences;
     now := today;
     tracker_issue := fun _ => issue;
     tracker_comments := fun _ => comments |}.

Definition nov3 : date := {| year := 2026; mon := November; day := 3 |}.
Definition nov4 : date := {| year := 2026; mon := November; day := 4 |}.

Definition platform1 : Platform := platform_on nov3 (Reply ticket1) (Reply (Some [])).
Definition platform2 : Platform := platform_on nov4 (Reply ticket1) (Reply (Some [])).

(** The tracker answers for the issue, not for its comments. *)
Definition platform_no_comments : Platform :=
  platform_on nov3 (Reply ticket1) (Failure "timed out").

(** The tracker does not answer at all. *)
Definition platform_down : Platform :=
  platform_on nov3 (Failure "timed out") (Failure "timed out").

Definition jira : JiraService.JiraService :=
  {| JiraService.base_url := "https://jira.example" |}.

Definition generator : TestGeneratorService :=
  {| output_dir := "./generated-tests" |}.

Definition empty_fs : fs := {| dirs := ∅; files := ∅ |}.

End Sample.

(* ===================================================================== *)
(** ** Notions used in the statements *)
(* ===================================================================== *)

Import Py Re TestGenerator.

(** The groups of [always_set] are set in a match. *)
Definition groups_set (r : regex) (m : match_) : Prop :=
  forall n, In n (always_set r) -> is_Some (group m n).

(** A scenario that can be rendered: at least one entry in each of its
    three step lists. *)
Definition renderable (sc : TestScenario) : Prop :=
  1 <= length (given sc) /\ 1 <= length (when_ sc) /\ 1 <= length (then_ sc).

(** The order low < medium < high. *)
Definition level_le (a b : complexity) : Prop := rank a <= rank b.

(** The files written and the directories made by a trace. *)
Definition written (es : list event) : gmap string string :=
  files (replay es Sample.empty_fs).

Definition made (es : list event) : gset string :=
  dirs (replay es Sample.empty_fs).

(** An action that does not touch the file system. *)
Definition is_fetch (e : event) : Prop :=
  match e with HttpGet _ => True | _ => False end.

(** [{ticket_key}_Test{n}.txt]. *)
Definition plan_name (ticket_key : string) (n : nat) : string :=
  cat [ticket_key; "_Test"; str_of_nat n; ".txt"].

(** The text of a comment, as [_summarize_discussions] reads it. *)
Definition comment_text (c : Comment) : string :=
  match default (PlainBody "") (c_body c) with
  | AdfBody doc => JiraService._extract_text_from_adf doc
  | PlainBody t => t
  end.

(** A plain-text comment. *)
Definition plain_comment (c : option string * string) : Comment :=
  {| c_body := Some (PlainBody c.2); c_author := c.1 |}.

(** A rich-text leaf holding one piece of text. *)
Definition text_leaf (t : string) : adf := AdfNode (Some t) [].

(** The requirements that [_extract_test_data_requirements] collects: the
    three fixed ones, one per vocabulary word found in the lower-cased
    description, one per step whose action mentions data, value or input. *)
Definition mentions_data (step : Step) : bool :=
  contains "data" (lower (action step))
  || contains "value" (lower (action step))
  || contains "input" (lower (action step)).

Definition vocabulary : list string :=
  [ "email"; "username"; "password"; "name"; "address";
    "phone"; "date"; "number"; "id"; "code" ].

Definition collected_requirement
           (test_steps : list Step) (description : string) (x : string) : Prop :=
  In x [ "Valid user credentials for test execution";
         "Test environment access configuration";
         "Sample data matching requirements specifications" ]
  \/ (exists keyword,
         In keyword vocabulary /\
         contains keyword (lower description) = true /\
         x = cat ["Valid test "; keyword; " data"])
  \/ (exists step,
         In step test_steps /\
         mentions_data step = true /\
         x = cat ["Data for: "; slice_to 60 (action step)]).

(** The paths written and the directories made by a trace, in order. *)
Definition write_paths (es : list event) : list string :=
  concat (map (fun e => match e with WriteText p _ => [p] | _ => [] end) es).

Definition made_dirs (es : list event) : list string :=
  concat (map (fun e => match e with Mkdir p => [p] | _ => [] end) es).

(** The names of the files of a full generation, in the order written. *)
Definition suite_names (language ticket_key : string) (scenario_count : nat)
  : list string :=
  [cat [ticket_key; ".feature"]]
  ++ (if String.eqb language "java"
      then ["StepDefinitions.java"; "TestRunner.java"; "pom.xml"]
      else ["step_definitions.py"; "requirements.txt"])
  ++ ["testng.xml"; "README.md"]
  ++ map (plan_name ticket_key) (seq 1 (scenario_count + 8)).

(* ===================================================================== *)
(** * Properties *)
(* ===================================================================== *)

(* ===================================================================== *)
(** ** Facts about the matcher *)
(* ===================================================================== *)

Section MatcherFacts.
Context {R : Type}.
Implicit Types (k : string -> caps -> option R) (g : caps) (s : string).

Lemma rep_greedy_continues i s : forall min g k x,
  rep_greedy i min s g k = Some x -> exists s', k s' g = Some x.
Proof.
  induction s as [|c s IH]; intros min g k x; simpl.
  - destruct (Nat.eqb min 0); [eauto | discriminate].
  - destruct (item_match i c).
    + destruct (rep_greedy i (pred min) s g k) eqn:E.
      * intros [= <-]. eapply IH, E.
      * destruct (Nat.eqb min 0); [eauto | discriminate].
    + destruct (Nat.eqb min 0); [eauto | discriminate].
Qed.

Lemma rep_lazy_continues i s : forall min g k x,
  rep_lazy i min s g k = Some x -> exists s', k s' g = Some x.
Proof.
  induction s as [|c s IH]; intros [|m] g k x; simpl; try discriminate.
  - destruct (k EmptyString g) eqn:E; [intros [= <-]; eauto | discriminate].
  - destruct (k (String c s) g) eqn:E; [intros [= <-]; eauto |].
    destruct (item_match i c); [apply IH | discriminate].
  - destruct (item_match i c); [apply IH | discriminate].
Qed.

(** A successful run hands its continuation a capture list in which the
    earlier groups are kept and the groups of [always_set r] are set. *)
Lemma run_continues r : forall s g k x,
  run r s g k = Some x ->
  exists s' g',
    k s' g' = Some x /\
    forall n, is_Some (get_cap n g) \/ In n (always_set r) -> is_Some (get_cap n g').
Proof.
  induction r as [| i | | r1 IH1 r2 IH2 | r1 IH1 r2 IH2 | i | greedy min i | n r1 IH1];
    intros s g k x; simpl.
  - intros H. exists s, g. split; [done | intros n [?|[]]; done].
  - destruct s as [|c s]; [discriminate|].
    destruct (item_match i c); [|discriminate].
    intros H. exists s, g. split; [done | intros n [?|[]]; done].
  - destruct (at_end s); [|discriminate].
    intros H. exists s, g. split; [done | intros n [?|[]]; done].
  - intros H. apply IH1 in H as (s1 & g1 & H & Hg1).
    apply IH2 in H as (s2 & g2 & H & Hg2).
    exists s2, g2. split; [done|].
    intros n [Hn|Hn]; [auto|].
    apply in_app_or in Hn as [Hn|Hn]; auto.
  - destruct (run r1 s g k) eqn:E.
    + intros [= <-]. apply IH1 in E as (s1 & g1 & H & Hg1).
      exists s1, g1. split; [done | intros n [?|[]]; auto].
    + intros H. apply IH2 in H as (s2 & g2 & H & Hg2).
      exists s2, g2. split; [done | intros n [?|[]]; auto].
  - assert (Hskip : k s g = Some x ->
                    exists s' g', k s' g' = Some x /\
                      forall n, is_Some (get_cap n g) \/ False -> is_Some (get_cap n g')).
    { intros H. exists s, g. split; [done | intros n [?|[]]; done]. }
    destruct s as [|c s]; [exact Hskip|].
    destruct (item_match i c); [|exact Hskip].
    destruct (k s g) eqn:E; [|exact Hskip].
    intros [= <-]. exists s, g. split; [done | intros n [?|[]]; done].
  - intros H.
    assert (exists s', k s' g = Some x) as [s' Hs'].
    { destruct greedy; [eapply rep_greedy_continues | eapply rep_lazy_continues]; exact H. }
    exists s', g. split; [done | intros n [?|[]]; done].
  - intros H. apply IH1 in H as (s1 & g1 & H & Hg1).
    eexists _, _. split; [exact H|].
    intros m [Hm|[->|Hm]]; simpl.
    + destruct (Nat.eqb m n); [done | auto].
    + rewrite Nat.eqb_refl. done.
    + destruct (Nat.eqb m n); [done | auto].
Qed.
End MatcherFacts.


Lemma match_at_groups r adv s m :
  match_at r adv s = Some m -> groups_set r m.
Proof.
  unfold match_at. intros H.
  apply run_continues in H as (s' & g' & H & Hg).
  destruct (adv && Nat.eqb (len s - len s') 0); [discriminate|].
  injection H as <-. intros n Hn. apply Hg. by right.
Qed.

Lemma attempts_groups r s : Forall (groups_set r) (attempts r s).1.
Proof.
  unfold attempts.
  destruct (match_at r false s) as [m|] eqn:E; [|by constructor].
  apply match_at_groups in E.
  destruct (Nat.eqb (width m) 0); [|by repeat constructor].
  destruct (match_at r true s) as [m'|] eqn:E'; [|by repeat constructor].
  apply match_at_groups in E'. by repeat constructor.
Qed.

Lemma finditer_from_groups r s : forall skip,
  Forall (groups_set r) (finditer_from r skip s).
Proof.
  assert (Hhere : forall s' rest,
             Forall (groups_set r) rest ->
             Forall (groups_set r) ((attempts r s').1 ++ rest)).
  { intros s' rest Hrest. apply Forall_app. split; [apply attempts_groups | exact Hrest]. }
  induction s as [|c s IH]; intros [|[|k]]; simpl;
    try (destruct (attempts r _) as [ms w] eqn:E).
  - specialize (Hhere EmptyString []). rewrite E in Hhere. apply Hhere. constructor.
  - specialize (Hhere EmptyString []). rewrite E in Hhere. apply Hhere. constructor.
  - constructor.
  - specialize (Hhere (String c s) (finditer_from r w s)).
    rewrite E in Hhere. apply Hhere, IH.
  - specialize (Hhere (String c s) (finditer_from r w s)).
    rewrite E in Hhere. apply Hhere, IH.
  - apply IH.
Qed.

Lemma finditer_groups r s : Forall (groups_set r) (finditer r s).
Proof. apply finditer_from_groups. Qed.

(* ===================================================================== *)
(** ** Requirement extraction *)
(* ===================================================================== *)


Lemma for_each_Forall {A B} (f : A -> res (list B))
      (P : A -> Prop) (Q : B -> Prop) (xs : list A) :
  (forall x, P x -> exists ys, f x = Ok ys /\ Forall Q ys) ->
  Forall P xs ->
  exists l, for_each f xs = Ok l /\ Forall Q l.
Proof.
  intros Hf. induction 1 as [|x xs Hx _ (l & Hl & HQ)]; simpl.
  - exists []. by split.
  - destruct (Hf x Hx) as (ys & -> & Hys). simpl. rewrite Hl. simpl.
    exists (ys ++ l). split; [done | by apply Forall_app].
Qed.

Lemma for_each_singletons {A B} (f : A -> res (list B))
      (P : A -> Prop) (Q : B -> Prop) (xs : list A) :
  (forall x, P x -> exists y, f x = Ok [y] /\ Q y) ->
  Forall P xs ->
  exists l, for_each f xs = Ok l /\ length l = length xs /\ Forall Q l.
Proof.
  intros Hf. induction 1 as [|x xs Hx _ (l & Hl & Hlen & HQ)]; simpl.
  - exists []. by repeat split.
  - destruct (Hf x Hx) as (y & -> & Hy). simpl. rewrite Hl. simpl.
    exists (y :: l). split; [done|]. split; [simpl; by rewrite Hlen | by constructor].
Qed.

Lemma gwt_groups : always_set gwt_pattern = [1; 2; 3].
Proof. reflexivity. Qed.

Lemma keyword_groups : Forall (fun p => In 1 (always_set p)) test_keywords.
Proof. repeat constructor; vm_compute; tauto. Qed.

(** One Given-When-Then match gives one scenario, labelled
    ["Scenario: " + summary], with one entry per step list. *)
Lemma gwt_scenario_ok summary m :
  groups_set gwt_pattern m ->
  exists sc,
    gwt_scenario summary m = Ok [sc] /\
    scenario sc = cat ["Scenario: "; summary] /\ renderable sc.
Proof.
  intros H. unfold gwt_scenario, group_strip.
  destruct (H 1) as [g ->]; [rewrite gwt_groups; simpl; tauto|].
  destruct (H 2) as [w ->]; [rewrite gwt_groups; simpl; tauto|].
  destruct (H 3) as [t ->]; [rewrite gwt_groups; simpl; tauto|].
  simpl. eexists. split; [reflexivity|]. split; [reflexivity|].
  unfold renderable. simpl. lia.
Qed.

Lemma discussion_scenario_ok m :
  is_Some (group m 1) ->
  exists ys, discussion_scenario m = Ok ys /\ Forall renderable ys.
Proof.
  intros [t Ht]. unfold discussion_scenario, group_strip. rewrite Ht. simpl.
  destruct (truthy (strip t) && Nat.ltb 10 (len (strip t))); eexists; split;
    try reflexivity; repeat constructor; simpl; lia.
Qed.

Lemma discussions_ok discussion_summary summary :
  exists l,
    _extract_scenarios_from_discussions discussion_summary summary = Ok l /\
    Forall renderable l.
Proof.
  unfold _extract_scenarios_from_discussions.
  eapply for_each_Forall; [|exact keyword_groups].
  intros pattern Hp. simpl in Hp.
  eapply for_each_Forall; [|apply finditer_groups].
  intros m Hm. apply discussion_scenario_ok, Hm, Hp.
Qed.

(** The extraction never raises; it returns the scenarios of the
    Given-When-Then matches, then those of the discussion, or the single
    fallback scenario when there is none of either. *)
Lemma extract_shape description summary discussion_summary :
  exists gwt others,
    length gwt = length (finditer gwt_pattern
                           (cat [description; nl; nl; discussion_summary])) /\
    Forall (fun sc => scenario sc = cat ["Scenario: "; summary] /\ renderable sc) gwt /\
    Forall renderable others /\
    _extract_test_scenarios description summary discussion_summary =
      Ok (match gwt ++ others with
          | [] => [fallback_scenario summary]
          | l => l
          end).
Proof.
  unfold _extract_test_scenarios.
  destruct (for_each_singletons (gwt_scenario summary) (groups_set gwt_pattern)
              (fun sc => scenario sc = cat ["Scenario: "; summary] /\ renderable sc)
              (finditer gwt_pattern (cat [description; nl; nl; discussion_summary])))
    as (gwt & -> & Hlen & Hgwt);
    [apply gwt_scenario_ok | apply finditer_groups |].
  simpl.
  assert (exists others,
             (if truthy discussion_summary
              then _extract_scenarios_from_discussions discussion_summary summary
              else Ok []) = Ok others /\ Forall renderable others)
    as (others & -> & Hothers).
  { destruct (truthy discussion_summary); [apply discussions_ok|].
    exists []. by split. }
  simpl. exists gwt, others. repeat split; try done.
  by destruct (gwt ++ others).
Qed.

Lemma fallback_renderable summary : renderable (fallback_scenario summary).
Proof. unfold renderable. simpl. lia. Qed.

Lemma extract_ok description summary discussion_summary :
  exists scenarios,
    _extract_test_scenarios description summary discussion_summary = Ok scenarios /\
    scenarios <> [] /\ Forall renderable scenarios.
Proof.
  destruct (extract_shape description summary discussion_summary)
    as (gwt & others & _ & Hgwt & Hothers & ->).
  eexists. split; [reflexivity|].
  assert (Forall renderable (gwt ++ others)) as Hall.
  { apply Forall_app. split; [|done].
    eapply Forall_impl; [exact Hgwt|]. by intros sc [_ ?]. }
  destruct (gwt ++ others) as [|sc l]; (split; [done|]); [|done].
  repeat constructor; apply fallback_renderable.
Qed.

(** C1.  For every description, summary and discussion summary,
    [_extract_test_scenarios] returns a list that is not empty and in which
    every scenario has at least one entry in each of [given], [when] and
    [then]; with an empty description and an empty discussion summary it
    returns exactly the fallback scenario, labelled ["Test " + summary]
    (so ["Test "] for the empty summary), with the three fixed strings. *)
Theorem extract_never_empty :
  (forall description summary discussion_summary,
      exists scenarios,
        _extract_test_scenarios description summary discussion_summary = Ok scenarios /\
        scenarios <> [] /\
        Forall (fun sc => 1 <= length (given sc) /\
                          1 <= length (when_ sc) /\
                          1 <= length (then_ sc)) scenarios) /\
  (forall summary,
      _extract_test_scenarios "" summary "" =
        Ok [ {| scenario := cat ["Test "; summary];
                given := ["User is on the application"];
                when_ := ["User performs the action described in ticket"];
                then_ := ["Expected behavior occurs as per ticket description"] |} ]) /\
  _extract_test_scenarios "" "" "" =
    Ok [ {| scenario := "Test ";
            given := ["User is on the application"];
            when_ := ["User performs the action described in ticket"];
            then_ := ["Expected behavior occurs as per ticket description"] |} ].
Proof.
  split; [|split].
  - intros. apply extract_ok.
  - intros summary. reflexivity.
  - reflexivity.
Qed.

(** C3.  For the description
    "Given user is logged in\nWhen user clicks submit\nThen order is placed",
    any summary and an empty discussion summary, the extraction yields the
    scenario with given = ["user is logged in"], when = ["user clicks
    submit"], then = ["order is placed"] (and no other); the keywords are
    matched in any letter case and the captured text is trimmed, as the
    same result for a shouted, padded variant of the description shows. *)
Theorem extract_given_when_then :
  forall summary,
    _extract_test_scenarios
      (cat ["Given user is logged in"; nl;
            "When user clicks submit"; nl;
            "Then order is placed"])
      summary "" =
      Ok [ {| scenario := cat ["Scenario: "; summary];
              given := ["user is logged in"];
              when_ := ["user clicks submit"];
              then_ := ["order is placed"] |} ] /\
    _extract_test_scenarios
      (cat ["GIVEN   user is logged in  "; nl;
            "wHeN user clicks submit "; nl;
            "then  order is placed   "])
      summary "" =
      Ok [ {| scenario := cat ["Scenario: "; summary];
              given := ["user is logged in"];
              when_ := ["user clicks submit"];
              then_ := ["order is placed"] |} ].
Proof. intros summary. split; reflexivity. Qed.

(** C9 as stated fails: the label of the scenario made from a
    Given-When-Then match is not the ticket summary.  For the summary
    "Login" the label is "Scenario: Login". *)
Lemma gwt_label_is_not_summary :
  exists m sc,
    finditer gwt_pattern (cat [Sample.description3; nl; nl; ""]) = [m] /\
    gwt_scenario "Login" m = Ok [sc] /\
    _extract_test_scenarios Sample.description3 "Login" "" = Ok [sc] /\
    scenario sc = "Scenario: Login" /\
    scenario sc <> "Login".
Proof.
  eexists _, _. split; [vm_compute; reflexivity|].
  split; [vm_compute; reflexivity|].
  split; [vm_compute; reflexivity|].
  split; [reflexivity | discriminate].
Qed.

(** C9, amended.  Every Given-When-Then match found in the combined
    description and discussion text yields one scenario, and the label of
    each is "Scenario: " followed by the ticket summary; these scenarios
    come first in the result. *)
Theorem gwt_label_has_prefix :
  forall description summary discussion_summary,
  exists gwt others,
    length gwt = length (finditer gwt_pattern
                           (cat [description; nl; nl; discussion_summary])) /\
    Forall (fun sc => scenario sc = cat ["Scenario: "; summary]) gwt /\
    _extract_test_scenarios description summary discussion_summary =
      Ok (match gwt ++ others with
          | [] => [fallback_scenario summary]
          | l => l
          end).
Proof.
  intros description summary discussion_summary.
  destruct (extract_shape description summary discussion_summary)
    as (gwt & others & Hlen & Hgwt & _ & Heq).
  exists gwt, others. repeat split; try done.
  eapply Forall_impl; [exact Hgwt|]. by intros sc [? _].
Qed.


(** C4.  [_calculate_complexity] returns low when the scenario count is at
    most 2 and the description is shorter than 500 characters, else medium
    when the count is at most 5 and the length below 1500, else high; and
    it is monotonic in the scenario count and in the description length
    for the order low < medium < high.  The boundary values 2/500 and
    5/1500 are evaluated at the end. *)
Theorem complexity_thresholds_monotone :
  (forall scenarios description,
      _calculate_complexity scenarios description =
        if decide (length scenarios <= 2 /\ len description < 500) then low
        else if decide (length scenarios <= 5 /\ len description < 1500) then medium
        else high) /\
  (forall scenarios scenarios' description description',
      length scenarios <= length scenarios' ->
      len description <= len description' ->
      level_le (_calculate_complexity scenarios description)
               (_calculate_complexity scenarios' description')) /\
  (forall sc,
      _calculate_complexity [sc; sc] (times "x" 499) = low /\
      _calculate_complexity [sc; sc] (times "x" 500) = medium /\
      _calculate_complexity [sc; sc; sc] (times "x" 499) = medium /\
      _calculate_complexity [sc; sc; sc; sc; sc] (times "x" 1499) = medium /\
      _calculate_complexity [sc; sc; sc; sc; sc] (times "x" 1500) = high /\
      _calculate_complexity [sc; sc; sc; sc; sc; sc] (times "x" 1499) = high).
Proof.
  split; [|split].
  - intros scenarios description. unfold _calculate_complexity.
    repeat case_decide;
      destruct (Nat.leb_spec (length scenarios) 2), (Nat.ltb_spec (len description) 500),
               (Nat.leb_spec (length scenarios) 5), (Nat.ltb_spec (len description) 1500);
      simpl; try reflexivity; lia.
  - intros scenarios scenarios' description description' Hn Hd.
    unfold level_le, _calculate_complexity.
    destruct (Nat.leb_spec (length scenarios) 2), (Nat.ltb_spec (len description) 500),
             (Nat.leb_spec (length scenarios) 5), (Nat.ltb_spec (len description) 1500),
             (Nat.leb_spec (length scenarios') 2), (Nat.ltb_spec (len description') 500),
             (Nat.leb_spec (length scenarios') 5), (Nat.ltb_spec (len description') 1500);
      simpl; lia.
  - intros sc. repeat split; vm_compute; reflexivity.
Qed.

Lemma complexity_thresholds_monotone_witness :
  level_le (_calculate_complexity [] "") 
           (_calculate_complexity [fallback_scenario ""; fallback_scenario "";
                                   fallback_scenario ""] "abc").
Proof.
  apply (proj1 (proj2 complexity_thresholds_monotone)); simpl; lia.
Defined.

(* ===================================================================== *)
(** ** Effects: traces and their replay *)
(* ===================================================================== *)

Lemma bind_ok {A B} (m : io A) (f : A -> io B) a :
  outcome m = Ok a ->
  trace (m ≫= f) = trace m ++ trace (f a) /\ outcome (m ≫= f) = outcome (f a).
Proof. unfold mbind, io_bind. intros ->. by split. Qed.

Lemma bind_raise {A B} (m : io A) (f : A -> io B) e :
  outcome m = Raise e ->
  trace (m ≫= f) = trace m /\ outcome (m ≫= f) = Raise e.
Proof. unfold mbind, io_bind. intros ->. by split. Qed.

(** A loop whose body does one action and returns one value. *)
Lemma mapM_one_action {A B} (f : A -> io B) (ev : A -> event) (val : A -> B) xs :
  (forall x, trace (f x) = [ev x] /\ outcome (f x) = Ok (val x)) ->
  trace (mapM f xs) = map ev xs /\ outcome (mapM f xs) = Ok (map val xs).
Proof.
  intros Hf. induction xs as [|x xs [IHt IHo]]; [by split|].
  destruct (Hf x) as [Ht Ho].
  change (mapM f (x :: xs)) with (y ← f x; k ← mapM f xs; mret (y :: k)).
  destruct (bind_ok (f x) (fun y => k ← mapM f xs; mret (y :: k)) _ Ho) as [-> ->].
  destruct (bind_ok (mapM f xs) (fun k => mret (val x :: k)) _ IHo) as [-> ->].
  simpl. rewrite Ht, IHt. simpl. by rewrite app_nil_r.
Qed.


Lemma replay_files es : forall s,
  files (replay es s) = written es ∪ files s.
Proof.
  unfold written, replay.
  induction es as [|e es IH]; intros s; simpl.
  - by rewrite (left_id_L ∅ (∪)).
  - rewrite IH. rewrite (IH (apply_event e Sample.empty_fs)).
    destruct e; simpl.
    + by rewrite (right_id_L ∅ (∪)).
    + by rewrite (right_id_L ∅ (∪)).
    + rewrite (insert_union_singleton_l (files s)).
      rewrite (insert_union_singleton_l ∅).
      rewrite (right_id_L ∅ (∪)). by rewrite (assoc_L (∪)).
Qed.

Lemma replay_dirs es : forall s,
  dirs (replay es s) = made es ∪ dirs s.
Proof.
  unfold made, replay.
  induction es as [|e es IH]; intros s; simpl.
  - by rewrite (left_id_L ∅ (∪)).
  - rewrite IH. rewrite (IH (apply_event e Sample.empty_fs)).
    destruct e; simpl; rewrite ?(right_id_L ∅ (∪)); try done.
    by rewrite (assoc_L (∪)).
Qed.

Lemma fs_eq (a b : fs) : dirs a = dirs b -> files a = files b -> a = b.
Proof. destruct a, b. simpl. by intros -> ->. Qed.

(** Replaying a trace a second time changes nothing: directories are made
    with [exist_ok] and every file is overwritten with what it holds. *)
Lemma replay_twice es s : replay es (replay es s) = replay es s.
Proof.
  apply fs_eq.
  - rewrite !replay_dirs. rewrite (assoc_L (∪)). by rewrite (idemp_L (∪)).
  - rewrite !replay_files. rewrite (assoc_L (∪)). by rewrite (idemp_L (∪)).
Qed.


Lemma replay_fetches es s : Forall is_fetch es -> replay es s = s.
Proof.
  unfold replay. intros H. revert s.
  induction H as [|e es He _ IH]; intros s; simpl; [done|].
  destruct e; first [done | apply IH].
Qed.

(* ===================================================================== *)
(** ** Manual test plans *)
(* ===================================================================== *)

Lemma enumerate_length {A} start (xs : list A) :
  length (enumerate start xs) = length xs.
Proof. unfold enumerate. rewrite length_combine, length_seq. lia. Qed.

Lemma enumerate_fst {A} start (xs : list A) :
  map fst (enumerate start xs) = seq start (length xs).
Proof.
  unfold enumerate. revert start.
  induction xs as [|x xs IH]; intros start; simpl; [done|]. by rewrite IH.
Qed.

Lemma enumerate_snd {A} start (xs : list A) :
  map snd (enumerate start xs) = xs.
Proof.
  unfold enumerate. revert start.
  induction xs as [|x xs IH]; intros start; simpl; [done|]. by rewrite IH.
Qed.

Lemma zip_with_fst_snd {A B C} (f : A -> B -> C) (l : list (A * B)) :
  map (fun p => f p.1 p.2) l = zip_with f (map fst l) (map snd l).
Proof. induction l as [|[a b] l IH]; simpl; [done|]. by rewrite IH. Qed.

Lemma zip_with_app_seq {B C} (f : nat -> B -> C) start (l1 l2 : list B) :
  zip_with f (seq start (length l1)) l1
  ++ zip_with f (seq (start + length l1) (length l2)) l2
  = zip_with f (seq start (length l1 + length l2)) (l1 ++ l2).
Proof.
  rewrite seq_app. symmetry. apply zip_with_app. by rewrite length_seq.
Qed.

Lemma additional_tests_length pf ticket_key description discussion_summary start :
  length (_generate_additional_test_cases pf ticket_key description
            discussion_summary start) = 8.
Proof.
  unfold _generate_additional_test_cases.
  by rewrite length_map, enumerate_length.
Qed.

Lemma string_app_inj_l (p a b : string) : p +:+ a = p +:+ b -> a = b.
Proof. induction p as [|c p IH]; simpl; [done|]. intros [= H]. auto. Qed.

Lemma string_app_length (a b : string) :
  String.length (a +:+ b) = String.length a + String.length b.
Proof. induction a as [|c a IH]; simpl; [done|]. by rewrite IH. Qed.

Lemma string_app_inj_r (t : string) : forall a b, a +:+ t = b +:+ t -> a = b.
Proof.
  induction a as [|c a IH]; intros [|d b]; simpl; intros H; try done.
  - apply (f_equal String.length) in H. simpl in H.
    rewrite !string_app_length in H. simpl in H. lia.
  - apply (f_equal String.length) in H. simpl in H.
    rewrite !string_app_length in H. simpl in H. lia.
  - injection H as -> H. f_equal. by apply IH.
Qed.

Lemma str_of_nat_inj a b : str_of_nat a = str_of_nat b -> a = b.
Proof.
  unfold str_of_nat. intros H.
  apply (f_equal NilEmpty.uint_of_string) in H.
  rewrite !NilEmpty.usu in H. injection H as H.
  apply (f_equal Nat.of_uint) in H.
  by rewrite !DecimalNat.Unsigned.of_to in H.
Qed.


Lemma plan_name_inj ticket_key a b :
  plan_name ticket_key a = plan_name ticket_key b -> a = b.
Proof.
  unfold plan_name, cat. simpl. intros H.
  apply string_app_inj_l in H. injection H as H.
  change (str_of_nat a +:+ ".txt" = str_of_nat b +:+ ".txt") in H.
  apply string_app_inj_r in H. by apply str_of_nat_inj.
Qed.


(* ===================================================================== *)
(** ** Test data requirements *)
(* ===================================================================== *)

Lemma in_concat_if {A} (c : A -> bool) (g : A -> string) (l : list A) x :
  In x (concat (map (fun a => if c a then [g a] else []) l)) <->
  exists a, In a l /\ c a = true /\ x = g a.
Proof.
  induction l as [|a l IH]; simpl.
  - split; [done | by intros (a & [] & _)].
  - rewrite in_app_iff, IH. split.
    + intros [H | (b & Hb & Hc & ->)].
      * destruct (c a) eqn:E; [|done]. destruct H as [<-|[]]. exists a. auto.
      * exists b. auto.
    + intros (b & [<-|Hb] & Hc & ->).
      * left. rewrite Hc. by left.
      * right. exists b. auto.
Qed.

Lemma lower_if_truthy d : (if truthy d then lower d else "") = lower d.
Proof. by destruct d. Qed.

Lemma NoDup_firstn {A} n (l : list A) : NoDup l -> NoDup (firstn n l).
Proof. intros H. eapply sublist_NoDup; [exact H | apply sublist_take]. Qed.

(** C8.  For every list of test steps and every description, the list
    returned by [_extract_test_data_requirements] has at most 10 entries
    and no entry twice, whatever order the interpreter's set has: the
    collected requirements (the three fixed ones, one per vocabulary word
    found in the lower-cased description, one per step whose action
    mentions data, value or input) are first reduced to their distinct
    members and only then cut to the first 10. *)
Theorem test_data_requirements_capped :
  forall pf test_steps description,
    set_list_lawful (set_list pf) ->
    let result := _extract_test_data_requirements pf test_steps description in
    length result <= 10 /\
    NoDup result /\
    exists collected,
      result = firstn 10 (set_list pf collected) /\
      NoDup (set_list pf collected) /\
      (forall x, In x (set_list pf collected) <-> In x collected) /\
      (forall x,
          In x collected <->
          In x [ "Valid user credentials for test execution";
                 "Test environment access configuration";
                 "Sample data matching requirements specifications" ]
          \/ (exists keyword,
                 In keyword [ "email"; "username"; "password"; "name"; "address";
                              "phone"; "date"; "number"; "id"; "code" ] /\
                 contains keyword (lower description) = true /\
                 x = cat ["Valid test "; keyword; " data"])
          \/ (exists step,
                 In step test_steps /\
                 contains "data" (lower (action step))
                 || contains "value" (lower (action step))
                 || contains "input" (lower (action step)) = true /\
                 x = cat ["Data for: "; slice_to 60 (action step)])).
Proof.
  intros pf test_steps description Hset result. subst result.
  unfold _extract_test_data_requirements. rewrite lower_if_truthy.
  match goal with |- context [firstn 10 (set_list pf ?l)] => set (collected := l) end.
  destruct (Hset collected) as [Hnodup Hmem].
  split; [apply firstn_le_length|].
  split; [by apply NoDup_firstn|].
  exists collected. repeat split; try done; try apply Hmem.
  - subst collected. rewrite !in_app_iff.
    rewrite (in_concat_if (fun keyword => contains keyword (lower description))
                          (fun keyword => cat ["Valid test "; keyword; " data"])).
    rewrite (in_concat_if
               (fun step => contains "data" (lower (action step))
                            || contains "value" (lower (action step))
                            || contains "input" (lower (action step)))
               (fun step => cat ["Data for: "; slice_to 60 (action step)])).
    tauto.
  - subst collected. rewrite !in_app_iff.
    rewrite (in_concat_if (fun keyword => contains keyword (lower description))
                          (fun keyword => cat ["Valid test "; keyword; " data"])).
    rewrite (in_concat_if
               (fun step => contains "data" (lower (action step))
                            || contains "value" (lower (action step))
                            || contains "input" (lower (action step)))
               (fun step => cat ["Data for: "; slice_to 60 (action step)])).
    tauto.
Qed.

Lemma first_occurrences_In xs x :
  In x (Sample.first_occurrences xs) <-> In x xs.
Proof.
  induction xs as [|y xs IH]; simpl; [done|].
  rewrite filter_In, IH. split.
  - intros [?|[? _]]; auto.
  - intros [?|?]; [by left|].
    destruct (String.eqb_spec y x); [by left | right; by split].
Qed.

Lemma first_occurrences_lawful : set_list_lawful Sample.first_occurrences.
Proof.
  intros xs. split; [|intros x; apply first_occurrences_In].
  induction xs as [|y xs IH]; simpl; [constructor|].
  constructor.
  - rewrite list_elem_of_In, filter_In. intros [_ H].
    by rewrite String.eqb_refl in H.
  - apply NoDup_ListNoDup, List.NoDup_filter, NoDup_ListNoDup, IH.
Qed.

Lemma test_data_requirements_capped_witness :
  length (_extract_test_data_requirements Sample.platform1
            [ {| step_num := 1; action := "Enter the input value";
                 expected := "accepted"; type_ := "Action" |};
              {| step_num := 2; action := "Enter the input value";
                 expected := "accepted"; type_ := "Action" |} ]
            "Email and user name of the account") <= 10.
Proof.
  apply (test_data_requirements_capped Sample.platform1).
  exact first_occurrences_lawful.
Defined.

(* ===================================================================== *)
(** ** Ticket client and tool facade *)
(* ===================================================================== *)

Import JiraService.

(** C6.  If fetching the ticket succeeds and fetching its comments raises,
    whatever the exception, [get_ticket_with_discussions] does not raise:
    it returns the ticket with [discussions] set to the empty list and
    [discussion_summary] set to the empty string. *)
Theorem comment_failure_is_absorbed :
  forall pf self ticket_id ticket e,
    outcome (fetch_ticket pf self ticket_id) = Ok ticket ->
    outcome (get_ticket_comments pf self ticket_id) = Raise e ->
    outcome (get_ticket_with_discussions pf self ticket_id) =
      Ok {| key := key ticket;
            fields := fields ticket;
            discussions := Some [];
            discussion_summary := Some "" |}.
Proof.
  intros pf self ticket_id ticket e Hticket Hcomments.
  unfold get_ticket_with_discussions.
  destruct (bind_ok (fetch_ticket pf self ticket_id)
              (fun ticket =>
                 try_except
                   (comments ← get_ticket_comments pf self ticket_id;
                    mret {| key := key ticket; fields := fields ticket;
                            discussions := Some comments;
                            discussion_summary :=
                              Some (_summarize_discussions comments) |})
                   (fun _ =>
                      mret {| key := key ticket; fields := fields ticket;
                              discussions := Some [];
                              discussion_summary := Some "" |}))
              ticket Hticket) as [_ ->].
  unfold try_except.
  destruct (bind_raise (get_ticket_comments pf self ticket_id)
              (fun comments =>
                 mret {| key := key ticket; fields := fields ticket;
                         discussions := Some comments;
                         discussion_summary :=
                           Some (_summarize_discussions comments) |})
              e Hcomments) as [_ ->].
  reflexivity.
Qed.

Lemma comment_failure_is_absorbed_witness :
  outcome (get_ticket_with_discussions Sample.platform_no_comments Sample.jira "PROJ-1") =
    Ok {| key := Some "PROJ-1";
          fields := fields Sample.ticket1;
          discussions := Some [];
          discussion_summary := Some "" |}.
Proof.
  apply (comment_failure_is_absorbed Sample.platform_no_comments Sample.jira "PROJ-1"
           Sample.ticket1 (ValueError "Failed to fetch comments: timed out"));
    reflexivity.
Defined.

(** The client only talks to the tracker: it touches no file. *)
Lemma fetch_ticket_trace pf self ticket_id :
  Forall is_fetch (trace (fetch_ticket pf self ticket_id)).
Proof.
  unfold fetch_ticket, get. destruct (tracker_issue pf ticket_id); repeat constructor.
Qed.

Lemma get_ticket_comments_trace pf self ticket_id :
  Forall is_fetch (trace (get_ticket_comments pf self ticket_id)).
Proof.
  unfold get_ticket_comments, get.
  destruct (tracker_comments pf ticket_id); repeat constructor.
Qed.

Lemma get_ticket_with_discussions_trace pf self ticket_id :
  Forall is_fetch (trace (get_ticket_with_discussions pf self ticket_id)).
Proof.
  unfold get_ticket_with_discussions, fetch_ticket, get_ticket_comments, get.
  destruct (tracker_issue pf ticket_id), (tracker_comments pf ticket_id);
    repeat constructor.
Qed.




(* ===================================================================== *)
(** ** Feature files *)
(* ===================================================================== *)

Lemma analyze_requirements_ok ticket k :
  key ticket = Some k ->
  exists analysis,
    analyze_requirements ticket = Ok analysis /\ an_ticket_key analysis = k.
Proof.
  intros Hk. unfold analyze_requirements.
  match goal with
  | |- context [_extract_test_scenarios ?d ?s ?ds] =>
      destruct (extract_ok d s ds) as (scenarios & -> & _)
  end.
  unfold item_key. rewrite Hk. simpl. eexists. split; reflexivity.
Qed.



(* ===================================================================== *)
(** ** Regeneration *)
(* ===================================================================== *)

(** The generator looks at the platform only for the date, the order of
    sets and the joining of paths. *)
Lemma generate_tests_platform pf1 pf2 self ticket language output_path :
  now pf1 = now pf2 ->
  set_list pf1 = set_list pf2 ->
  path_of pf1 = path_of pf2 ->
  path_div pf1 = path_div pf2 ->
  generate_tests pf1 self ticket language output_path =
  generate_tests pf2 self ticket language output_path.
Proof.
  destruct pf1, pf2. simpl. intros -> -> -> ->. reflexivity.
Qed.




(* ===================================================================== *)
(** ** Further properties of the ticket client *)
(* ===================================================================== *)

Lemma concat_singletons {A} (l : list A) : concat (map (fun x => [x]) l) = l.
Proof. induction l as [|x l IH]; simpl; [done|]. by rewrite IH. Qed.

(** X1.  Rich-text flattening: a node without text of its own whose
    children are text leaves flattens to the leaves' texts joined by single
    spaces, in document order; and a wrapper node without text of its own
    around a single node adds nothing. *)
Theorem adf_flattening :
  (forall ts : list string,
      _extract_text_from_adf (AdfNode None (map text_leaf ts)) = join " " ts) /\
  (forall node : adf,
      _extract_text_from_adf (AdfNode None [node]) = _extract_text_from_adf node).
Proof.
  split.
  - intros ts. unfold _extract_text_from_adf. f_equal. simpl.
    rewrite map_map. simpl. apply concat_singletons.
  - intros node. unfold _extract_text_from_adf. f_equal. simpl. apply app_nil_r.
Qed.

Lemma summarize_as_join comments :
  _summarize_discussions comments =
  join (cat [nl; nl]) (concat (map discussion_point comments)).
Proof. by destruct comments. Qed.

Lemma discussion_point_text c :
  discussion_point c =
  if truthy (strip (comment_text c))
  then [cat [default "Unknown" (c_author c); ": "; strip (comment_text c)]]
  else [].
Proof. unfold discussion_point, comment_text. by destruct (default _ (c_body c)). Qed.

Lemma truthy_false s : truthy s = false <-> s = "".
Proof. destruct s; simpl; split; congruence. Qed.

Lemma truthy_true s : truthy s = true <-> s <> "".
Proof. destruct s; simpl; split; congruence. Qed.

(** X2.  A comment whose text is empty or only whitespace leaves no trace
    in the discussion summary, wherever it stands among the comments. *)
Theorem blank_comments_are_skipped :
  forall before c after,
    strip (comment_text c) = "" ->
    _summarize_discussions (before ++ c :: after) =
    _summarize_discussions (before ++ after).
Proof.
  intros before c after Hblank.
  rewrite !summarize_as_join, !map_app, !concat_app. simpl.
  rewrite discussion_point_text, Hblank. reflexivity.
Qed.

Lemma blank_comments_are_skipped_witness :
  _summarize_discussions
    [ plain_comment (Some "Ann", "first");
      plain_comment (Some "Bob", "   ");
      plain_comment (None, "last") ] =
  _summarize_discussions
    [ plain_comment (Some "Ann", "first"); plain_comment (None, "last") ].
Proof.
  apply (blank_comments_are_skipped
           [plain_comment (Some "Ann", "first")]
           (plain_comment (Some "Bob", "   "))
           [plain_comment (None, "last")]).
  reflexivity.
Defined.

(** X3.  For plain-text comments that are not blank, the discussion
    summary is the entries "author: text", with the text trimmed and the
    author "Unknown" when the comment names none, in comment order and
    separated by one blank line. *)
Theorem summary_of_plain_comments :
  forall cs : list (option string * string),
    Forall (fun c => strip c.2 <> "") cs ->
    _summarize_discussions (map plain_comment cs) =
    join (cat [nl; nl])
         (map (fun c => cat [default "Unknown" c.1; ": "; strip c.2]) cs).
Proof.
  intros cs Hcs. rewrite summarize_as_join. f_equal.
  induction Hcs as [|[a t] cs Ht _ IH]; simpl; [done|].
  rewrite IH, discussion_point_text. simpl in *.
  apply truthy_true in Ht. unfold comment_text. simpl. by rewrite Ht.
Qed.

Lemma summary_of_plain_comments_witness :
  _summarize_discussions
    (map plain_comment [ (Some "Ann", " we should test logout "); (None, "ok") ]) =
  join (cat [nl; nl]) ["Ann: we should test logout"; "Unknown: ok"].
Proof.
  apply (summary_of_plain_comments
           [ (Some "Ann", " we should test logout "); (None, "ok") ]).
  repeat constructor; discriminate.
Defined.



(** X5.  [get_ticket_with_discussions] makes one or two requests and never
    touches the file system.  Whenever it returns, the ticket is the one
    the tracker sent, with its key and fields, and with [discussions] and
    [discussion_summary] both set and consistent: the summary is the
    summary of the discussions, which are the tracker's comments, or none
    when the comments could not be fetched. *)
Theorem fetched_ticket_is_consistent :
  forall pf self ticket_id,
    let run := get_ticket_with_discussions pf self ticket_id in
    (forall s, exec run s = s) /\
    1 <= length (trace run) <= 2 /\
    (forall t,
        outcome run = Ok t ->
        exists ticket comments,
          tracker_issue pf ticket_id = Reply ticket /\
          key t = key ticket /\
          fields t = fields ticket /\
          discussions t = Some comments /\
          discussion_summary t = Some (_summarize_discussions comments) /\
          comments =
            match tracker_comments pf ticket_id with
            | Reply data => default [] data
            | _ => []
            end).
Proof.
  intros pf self ticket_id run. split; [|split].
  - intros s. apply replay_fetches, get_ticket_with_discussions_trace.
  - subst run. unfold get_ticket_with_discussions, fetch_ticket, get_ticket_comments, get.
    destruct (tracker_issue pf ticket_id), (tracker_comments pf ticket_id); simpl; lia.
  - intros t. subst run.
    unfold get_ticket_with_discussions, fetch_ticket, get_ticket_comments, get.
    destruct (tracker_issue pf ticket_id) as [ticket| |]; [|discriminate..].
    destruct (tracker_comments pf ticket_id) as [data| |]; simpl;
      intros [= <-]; eexists _, _; repeat split.
Qed.

Lemma fetched_ticket_is_consistent_witness :
  exists ticket comments,
    tracker_issue Sample.platform1 "PROJ-1" = Reply ticket /\
    discussions
      {| key := Some "PROJ-1"; fields := fields Sample.ticket1;
         discussions := Some []; discussion_summary := Some "" |} = Some comments.
Proof.
  destruct (proj2 (proj2 (fetched_ticket_is_consistent Sample.platform1 Sample.jira "PROJ-1"))
              {| key := Some "PROJ-1"; fields := fields Sample.ticket1;
                 discussions := Some []; discussion_summary := Some "" |})
    as (ticket & comments & H1 & _ & _ & H2 & _); [reflexivity|].
  exists ticket, comments. by split.
Defined.

(** X6.  The tools that only read, [fetch_jira_ticket] and
    [analyze_ticket_requirements], leave the file system as it is, whatever
    the tracker answers. *)
Theorem reading_tools_write_nothing :
  forall pf jira_service ticket_id s,
    exec (Server.fetch_jira_ticket pf jira_service ticket_id) s = s /\
    exec (Server.analyze_ticket_requirements pf jira_service ticket_id) s = s.
Proof.
  intros pf jira_service ticket_id s. split.
  - apply replay_fetches, get_ticket_with_discussions_trace.
  - unfold exec, Server.analyze_ticket_requirements. apply replay_fetches.
    destruct (outcome (get_ticket_with_discussions pf jira_service ticket_id)) eqn:E.
    + destruct (bind_ok _ (fun ticket => lift (analyze_requirements ticket)) _ E) as [-> _].
      apply Forall_app. split; [apply get_ticket_with_discussions_trace | constructor].
    + destruct (bind_raise _ (fun ticket => lift (analyze_requirements ticket)) _ E) as [-> _].
      apply get_ticket_with_discussions_trace.
Qed.

(* ===================================================================== *)
(** ** Further properties of the analysis *)
(* ===================================================================== *)





Lemma len_slice_to n : forall s, len (slice_to n s) <= n.
Proof.
  unfold len. induction n as [|n IH]; intros [|c s]; simpl; try lia.
  specialize (IH s). lia.
Qed.

Lemma len_cat2 (a b : string) : len (cat [a; b]) = len a + len b.
Proof.
  unfold cat, len. simpl. rewrite !string_app_length. simpl. lia.
Qed.

Lemma strip_prefix_app (p s : string) : strip_prefix p (p +:+ s) = Some s.
Proof.
  induction p as [|c p IH]; simpl; [done|]. by rewrite Ascii.eqb_refl.
Qed.

Lemma strip_prefix_cat2 (p s : string) : strip_prefix p (cat [p; s]) = Some s.
Proof. unfold cat. simpl. apply strip_prefix_app. Qed.

(** X9.  Every scenario taken from the discussion has the two fixed
    given/then texts, a label made of "Scenario from discussion: " and at
    most 100 characters of the matched text, hence of at most 126
    characters, and a single when-step made of "User performs: " and at
    most 150 characters of it; the matched text is longer than 10
    characters.  The ticket summary plays no part. *)
Theorem discussion_scenarios_are_bounded :
  forall discussion_summary summary,
  exists scenarios,
    _extract_scenarios_from_discussions discussion_summary summary = Ok scenarios /\
    _extract_scenarios_from_discussions discussion_summary "" = Ok scenarios /\
    Forall (fun sc =>
              exists text,
                10 < len text /\
                scenario sc = cat ["Scenario from discussion: "; slice_to 100 text] /\
                given sc = ["User is on the application"] /\
                when_ sc = [cat ["User performs: "; slice_to 150 text]] /\
                then_ sc = ["Expected behavior should match the discussion requirement"] /\
                len (scenario sc) <= 126)
           scenarios.
Proof.
  intros discussion_summary summary.
  unfold _extract_scenarios_from_discussions.
  match goal with
  | |- exists l, for_each ?f ?xs = Ok l /\ _ /\ Forall ?Q l =>
      destruct (for_each_Forall f (fun p => In 1 (always_set p)) Q xs) as (l & Hl & HQ);
      [|exact keyword_groups | exists l; by repeat split]
  end.
  intros pattern Hp.
  eapply for_each_Forall; [|apply finditer_groups].
  intros m Hm. destruct (Hm 1 Hp) as [t Ht].
  unfold discussion_scenario, group_strip. rewrite Ht. simpl.
  destruct (truthy (strip t)); simpl; [|eexists; split; [reflexivity | constructor]].
  destruct (Nat.ltb_spec 10 (len (strip t))); eexists; (split; [reflexivity|]);
    [|constructor].
  repeat constructor. exists (strip t). repeat split; [done|].
  change (len (cat ["Scenario from discussion: "; slice_to 100 (strip t)]) <= 126).
  rewrite len_cat2. pose proof (len_slice_to 100 (strip t)).
  change (len "Scenario from discussion: ") with 26. lia.
Qed.

Lemma extract_labels description summary discussion_summary :
  exists gwt others,
    Forall (fun sc => scenario sc = cat ["Scenario: "; summary]) gwt /\
    Forall (fun sc => exists text,
                scenario sc = cat ["Scenario from discussion: "; text]) others /\
    (discussion_summary = "" -> others = []) /\
    _extract_test_scenarios description summary discussion_summary =
      Ok (match gwt ++ others with
          | [] => [fallback_scenario summary]
          | l => l
          end).
Proof.
  unfold _extract_test_scenarios.
  destruct (for_each_singletons (gwt_scenario summary) (groups_set gwt_pattern)
              (fun sc => scenario sc = cat ["Scenario: "; summary] /\ renderable sc)
              (finditer gwt_pattern (cat [description; nl; nl; discussion_summary])))
    as (gwt & -> & _ & Hgwt);
    [apply gwt_scenario_ok | apply finditer_groups |].
  simpl.
  destruct (discussion_scenarios_are_bounded discussion_summary summary)
    as (ds & Hds & _ & Hshape).
  exists gwt, (if truthy discussion_summary then ds else []).
  split; [eapply Forall_impl; [exact Hgwt|]; by intros sc [? _]|].
  split; [|split].
  - destruct (truthy discussion_summary); [|constructor].
    eapply Forall_impl; [exact Hshape|].
    intros sc (text & _ & Hlabel & _). eauto.
  - by intros ->.
  - destruct (truthy discussion_summary); [rewrite Hds|]; simpl;
      by destruct (gwt ++ _).
Qed.

(** X10.  The result of the extraction is either the fallback scenario
    alone or a list in which every label is "Scenario: " + summary or
    begins with "Scenario from discussion: "; so the fallback scenario
    never stands beside an extracted one.  Without discussion text only
    the first kind of label occurs. *)
Theorem fallback_stands_alone :
  forall description summary discussion_summary,
  exists scenarios,
    _extract_test_scenarios description summary discussion_summary = Ok scenarios /\
    (scenarios = [fallback_scenario summary] \/
     Forall (fun sc =>
               scenario sc = cat ["Scenario: "; summary] \/
               exists text, scenario sc = cat ["Scenario from discussion: "; text])
            scenarios) /\
    (In (fallback_scenario summary) scenarios ->
     scenarios = [fallback_scenario summary]) /\
    (discussion_summary = "" ->
     scenarios = [fallback_scenario summary] \/
     Forall (fun sc => scenario sc = cat ["Scenario: "; summary]) scenarios).
Proof.
  intros description summary discussion_summary.
  destruct (extract_labels description summary discussion_summary)
    as (gwt & others & Hgwt & Hothers & Hnone & ->).
  eexists. split; [reflexivity|].
  assert (Hall : Forall (fun sc =>
                           scenario sc = cat ["Scenario: "; summary] \/
                           exists text,
                             scenario sc = cat ["Scenario from discussion: "; text])
                        (gwt ++ others)).
  { apply Forall_app. split; (eapply Forall_impl; [eassumption|]); simpl; eauto. }
  destruct (gwt ++ others) as [|sc l] eqn:E.
  - split; [by left|]. split; [done|]. intros _. by left.
  - split; [by right|]. split.
    + intros Hin. exfalso.
      rewrite Forall_forall in Hall.
      destruct (Hall _ (proj2 (list_elem_of_In _ _) Hin)) as [H|[text H]];
        simpl in H; discriminate H.
    + intros Hds. right. rewrite (Hnone Hds), app_nil_r in E. by rewrite <- E.
Qed.

Lemma fallback_stands_alone_witness :
  exists scenarios,
    _extract_test_scenarios "" "Login" "" = Ok scenarios /\
    scenarios = [fallback_scenario "Login"].
Proof.
  destruct (fallback_stands_alone "" "Login" "") as (scs & Hex & _ & Halone & _).
  exists scs. split; [exact Hex|]. apply Halone.
  vm_compute in Hex. injection Hex as <-. by left.
Defined.

(* ===================================================================== *)
(** ** Further properties of the rendering helpers *)
(* ===================================================================== *)

(** X11.  [_format_description] never returns more than 541 characters:
    the placeholder sentence for an empty description, the trimmed text
    when it has at most 500 characters, and otherwise its first 500
    characters followed by the 41 characters of the elision marker. *)
Theorem format_description_is_bounded :
  forall description,
    len (_format_description description) <= 541 /\
    (description = "" ->
     _format_description description =
       "No detailed description available. Refer to ticket summary.") /\
    (description <> "" ->
     let formatted := strip (replace_all (String CR nl) nl description) in
     _format_description description =
       if decide (len formatted <= 500) then formatted
       else cat [slice_to 500 formatted;
                 cat ["..."; nl; "[See full description in JIRA ticket]"]]).
Proof.
  intros description. unfold _format_description.
  destruct description as [|c d].
  { split; [simpl; lia|]. split; [done | by intros H]. }
  change (truthy (String c d)) with true. cbn [negb].
  set (formatted := strip (replace_all (String CR nl) nl (String c d))).
  destruct (Nat.ltb_spec 500 (len formatted)) as [Hlong|Hshort].
  - split; [|split; [discriminate|]].
    + change (cat [slice_to 500 formatted; "..."; nl; "[See full description in JIRA ticket]"])
        with (cat [slice_to 500 formatted;
                   cat ["..."; nl; "[See full description in JIRA ticket]"]]).
      rewrite len_cat2. pose proof (len_slice_to 500 formatted).
      change (len (cat ["..."; nl; "[See full description in JIRA ticket]"])) with 41. lia.
    + intros _. cbv zeta. fold formatted. case_decide; [lia | reflexivity].
  - split; [lia|]. split; [discriminate|].
    intros _. cbv zeta. fold formatted. case_decide; [reflexivity | lia].
Qed.

Lemma format_description_is_bounded_witness :
  _format_description "" = "No detailed description available. Refer to ticket summary.".
Proof. apply (format_description_is_bounded ""). reflexivity. Defined.

Lemma length_concat_if {A B} (c : A -> bool) (g : A -> B) (l : list A) :
  length (concat (map (fun a => if c a then [g a] else []) l)) =
  length (List.filter c l).
Proof.
  induction l as [|a l IH]; simpl; [done|].
  rewrite length_app, IH. by destruct (c a).
Qed.

Lemma length_filter_le {A} (c : A -> bool) (l : list A) :
  length (List.filter c l) <= length l.
Proof. induction l as [|a l IH]; simpl; [lia|]. destruct (c a); simpl; lia. Qed.



Lemma replace_hyphen_step c s :
  replace_all "-" "_" (String c s) =
  String (if Ascii.eqb "-" c then "_"%char else c) (replace_all "-" "_" s).
Proof.
  unfold replace_all.
  change (replace_from 0 "-" "_" (String c s))
    with (match (if Ascii.eqb "-" c then Some s else None) with
          | Some _ => "_" +:+ replace_from 0 "-" "_" s
          | None => String c (replace_from 0 "-" "_" s)
          end).
  destruct (Ascii.eqb "-" c); reflexivity.
Qed.

Lemma contains_hyphen_step x r :
  contains "-" (String x r) = Ascii.eqb "-" x || contains "-" r.
Proof.
  change (contains "-" (String x r))
    with (match (if Ascii.eqb "-" x then Some r else None) with
          | Some _ => true
          | None => contains "-" r
          end).
  destruct (Ascii.eqb "-" x); reflexivity.
Qed.

(** X13.  The class name derived from a ticket key by
    [key.replace("-", "_")] has no hyphen left and is as long as the key. *)
Theorem class_name_has_no_hyphen :
  forall ticket_key,
    contains "-" (replace_all "-" "_" ticket_key) = false /\
    len (replace_all "-" "_" ticket_key) = len ticket_key.
Proof.
  induction ticket_key as [|c s [IHc IHl]]; [by split|].
  rewrite replace_hyphen_step. split.
  - rewrite contains_hyphen_step, IHc.
    destruct (Ascii.eqb_spec "-" c) as [<-|Hc]; [reflexivity|].
    destruct (Ascii.eqb_spec "-" c); [done | reflexivity].
  - unfold len in *. simpl. by rewrite IHl.
Qed.

(** X14.  The scaffolding takes nothing from the analysis but the ticket
    key: two analyses with the same key give the same Java files, the same
    suite configuration and the same Python files (the Python files do not
    even depend on the key). *)
Theorem scaffolding_depends_on_key_only :
  forall pf analysis1 analysis2 output_dir,
    an_ticket_key analysis1 = an_ticket_key analysis2 ->
    _generate_java_tests pf analysis1 output_dir =
      _generate_java_tests pf analysis2 output_dir /\
    _generate_testng_xml analysis1 = _generate_testng_xml analysis2 /\
    (forall analysis3,
        _generate_python_tests pf analysis1 output_dir =
        _generate_python_tests pf analysis3 output_dir).
Proof.
  intros pf analysis1 analysis2 output_dir Hkey. split; [|split].
  - unfold _generate_java_tests. by rewrite Hkey.
  - unfold _generate_testng_xml. by rewrite Hkey.
  - reflexivity.
Qed.

Lemma scaffolding_depends_on_key_only_witness :
  _generate_testng_xml
    {| an_ticket_key := "PROJ-1"; an_summary := "a"; an_discussion_summary := "";
       an_test_scenarios := []; an_estimated_test_count := 0; an_complexity := low |} =
  _generate_testng_xml
    {| an_ticket_key := "PROJ-1"; an_summary := "b"; an_discussion_summary := "x";
       an_test_scenarios := [fallback_scenario "b"]; an_estimated_test_count := 1;
       an_complexity := high |}.
Proof.
  apply (scaffolding_depends_on_key_only Sample.platform1
           {| an_ticket_key := "PROJ-1"; an_summary := "a"; an_discussion_summary := "";
              an_test_scenarios := []; an_estimated_test_count := 0; an_complexity := low |}
           {| an_ticket_key := "PROJ-1"; an_summary := "b"; an_discussion_summary := "x";
              an_test_scenarios := [fallback_scenario "b"]; an_estimated_test_count := 1;
              an_complexity := high |} "out").
  reflexivity.
Defined.

(** X15.  When the collected requirements are few enough (the words of the
    vocabulary found in the description and the steps that mention data,
    value or input number at most 7 together), nothing is cut: whatever the
    order of the set, the returned list holds exactly the collected
    requirements, the three fixed ones among them. *)
Theorem few_requirements_are_all_kept :
  forall pf test_steps description,
    set_list_lawful (set_list pf) ->
    length (List.filter (fun keyword => contains keyword (lower description)) vocabulary)
    + length (List.filter mentions_data test_steps) <= 7 ->
    forall x,
      In x (_extract_test_data_requirements pf test_steps description) <->
      collected_requirement test_steps description x.
Proof.
  intros pf test_steps description Hset Hfew x.
  unfold _extract_test_data_requirements. rewrite lower_if_truthy.
  match goal with |- context [firstn 10 (set_list pf ?l)] => set (collected := l) end.
  destruct (Hset collected) as [Hnodup Hmem].
  assert (Hlen : length collected <= 10).
  { subst collected. rewrite !length_app.
    rewrite (length_concat_if (fun keyword => contains keyword (lower description))
                              (fun keyword => cat ["Valid test "; keyword; " data"])).
    rewrite (length_concat_if mentions_data
                              (fun step => cat ["Data for: "; slice_to 60 (action step)])).
    unfold vocabulary in Hfew. simpl length at 1. lia. }
  assert (Hall : firstn 10 (set_list pf collected) = set_list pf collected).
  { apply firstn_all2. etransitivity; [|exact Hlen].
    apply NoDup_incl_length; [by apply NoDup_ListNoDup|].
    intros y Hy. by apply Hmem. }
  rewrite Hall, Hmem. subst collected. rewrite !in_app_iff.
  rewrite (in_concat_if (fun keyword => contains keyword (lower description))
                        (fun keyword => cat ["Valid test "; keyword; " data"])).
  rewrite (in_concat_if mentions_data
                        (fun step => cat ["Data for: "; slice_to 60 (action step)])).
  unfold collected_requirement, vocabulary. tauto.
Qed.

Lemma few_requirements_are_all_kept_witness :
  In "Valid user credentials for test execution"
     (_extract_test_data_requirements Sample.platform1
        [ {| step_num := 1; action := "Clean up test data and restore initial state";
             expected := "System returns to original state"; type_ := "Cleanup" |} ]
        "Use the e-mail and the password of the account").
Proof.
  apply (few_requirements_are_all_kept Sample.platform1
           [ {| step_num := 1; action := "Clean up test data and restore initial state";
                expected := "System returns to original state"; type_ := "Cleanup" |} ]
           "Use the e-mail and the password of the account").
  - exact first_occurrences_lawful.
  - vm_compute. lia.
  - left. simpl. tauto.
Defined.

(* ===================================================================== *)
(** ** Further properties of the generators *)
(* ===================================================================== *)

Lemma io_eta {A} (m : io A) : m = IO (trace m) (outcome m).
Proof. by destruct m. Qed.

Lemma manual_plans_run pf ticket analysis output_dir :
  let N := length (an_test_scenarios analysis) in
  let path n := path_div pf output_dir (plan_name (an_ticket_key analysis) n) in
  exists contents,
    length contents = N + 8 /\
    _generate_manual_test_plans pf ticket analysis output_dir =
      IO (zip_with (fun n c => WriteText (path n) c) (seq 1 (N + 8)) contents)
         (Ok (map path (seq 1 (N + 8)))).
Proof.
  intros N path.
  set (description :=
         default "" (f_description
                       (default {| f_summary := None; f_description := None |}
                                (fields ticket)))).
  set (plan := fun p : nat * TestScenario =>
         _create_manual_test_plan pf (an_ticket_key analysis) p.1 p.2
           (an_summary analysis) description (an_discussion_summary analysis) N).
  set (extras :=
         _generate_additional_test_cases pf (an_ticket_key analysis) description
           (an_discussion_summary analysis) (N + 1)).
  set (plans := map plan (enumerate 1 (an_test_scenarios analysis))).
  assert (Hplans : length plans = N) by (subst plans; by rewrite length_map, enumerate_length).
  assert (Hextras : length extras = 8) by apply additional_tests_length.
  exists (plans ++ extras). split; [rewrite length_app; lia|].
  pose proof (mapM_one_action
                (fun '(idx, scenario) =>
                   _ ← write_text (path idx) (plan (idx, scenario)); mret (path idx))
                (fun p => WriteText (path p.1) (plan p))
                (fun p => path p.1)
                (enumerate 1 (an_test_scenarios analysis))) as [Ht1 Ho1].
  { by intros [idx scenario]. }
  pose proof (mapM_one_action
                (fun '(idx, test_content) =>
                   _ ← write_text (path idx) test_content; mret (path idx))
                (fun p => WriteText (path p.1) p.2)
                (fun p => path p.1)
                (enumerate (N + 1) extras)) as [Ht2 Ho2].
  { by intros [idx content]. }
  assert (Hdef : _generate_manual_test_plans pf ticket analysis output_dir =
            (generated_files ←
               mapM (fun '(idx, scenario) =>
                       _ ← write_text (path idx) (plan (idx, scenario));
                       mret (path idx))
                    (enumerate 1 (an_test_scenarios analysis));
             more_files ←
               mapM (fun '(idx, test_content) =>
                       _ ← write_text (path idx) test_content; mret (path idx))
                    (enumerate (N + 1) extras);
             mret (generated_files ++ more_files))) by reflexivity.
  rewrite Hdef. rewrite (io_eta (_ ≫= _)).
  destruct (bind_ok _ (fun generated_files =>
              more_files ← mapM (fun '(idx, test_content) =>
                                   _ ← write_text (path idx) test_content;
                                   mret (path idx))
                                (enumerate (N + 1) extras);
              mret (generated_files ++ more_files)) _ Ho1) as [-> ->].
  destruct (bind_ok _ (fun more_files =>
              mret (map (fun p : nat * TestScenario => path p.1)
                        (enumerate 1 (an_test_scenarios analysis)) ++ more_files))
              _ Ho2) as [-> ->].
  rewrite Ht1, Ht2.
  change (trace (mret _)) with (@nil event). rewrite app_nil_r.
  change (outcome (mret ?x)) with (Ok x).
  f_equal.
  - rewrite (zip_with_fst_snd (fun n c => WriteText (path n) c) (enumerate (N + 1) extras)).
    rewrite enumerate_fst, enumerate_snd.
    replace (map (fun p => WriteText (path p.1) (plan p))
                 (enumerate 1 (an_test_scenarios analysis)))
      with (zip_with (fun n c => WriteText (path n) c) (seq 1 (length plans)) plans).
    + replace (N + 1) with (1 + length plans) by lia.
      rewrite zip_with_app_seq. by rewrite Hplans, Hextras.
    + rewrite Hplans. subst plans. unfold N.
      rewrite <- (enumerate_fst 1 (an_test_scenarios analysis)).
      generalize (enumerate 1 (an_test_scenarios analysis)).
      induction l as [|[n sc] l IH]; simpl; [done|]. by rewrite IH.
  - f_equal.
    rewrite <- (map_map fst path), <- (map_map fst path (enumerate (N + 1) extras)).
    rewrite !enumerate_fst, Hextras. fold N.
    rewrite seq_app, map_app. by rewrite Nat.add_comm.
Qed.

Lemma bind_io {A B} tr (a : A) (f : A -> io B) :
  (IO tr (Ok a) ≫= f) = IO (tr ++ trace (f a)) (outcome (f a)).
Proof. reflexivity. Qed.

Lemma java_tests_run pf analysis output_dir :
  exists c1 c2 c3,
    _generate_java_tests pf analysis output_dir =
      IO [ WriteText (path_div pf output_dir "StepDefinitions.java") c1;
           WriteText (path_div pf output_dir "TestRunner.java") c2;
           WriteText (path_div pf output_dir "pom.xml") c3 ]
         (Ok [ path_div pf output_dir "StepDefinitions.java";
               path_div pf output_dir "TestRunner.java";
               path_div pf output_dir "pom.xml" ]).
Proof. eexists _, _, _. reflexivity. Qed.

Lemma python_tests_run pf analysis output_dir :
  exists c1 c2,
    _generate_python_tests pf analysis output_dir =
      IO [ WriteText (path_div pf output_dir "step_definitions.py") c1;
           WriteText (path_div pf output_dir "requirements.txt") c2 ]
         (Ok [ path_div pf output_dir "step_definitions.py";
               path_div pf output_dir "requirements.txt" ]).
Proof. eexists _, _. reflexivity. Qed.

Lemma zip_with_map_l {A B C D} (f : B -> C -> D) (g : A -> B) (l : list A) (k : list C) :
  zip_with f (map g l) k = zip_with (fun x => f (g x)) l k.
Proof.
  revert k. induction l as [|x l IH]; intros [|y k]; simpl; try done. by rewrite IH.
Qed.

Lemma length_zip_with_same {A B C} (f : A -> B -> C) (l : list A) (k : list B) :
  length l = length k -> length (zip_with f l k) = length l.
Proof.
  revert k. induction l as [|x l IH]; intros [|y k]; simpl; try done.
  intros [= H]. by rewrite IH.
Qed.





Lemma made_dirs_app es1 es2 : made_dirs (es1 ++ es2) = made_dirs es1 ++ made_dirs es2.
Proof. unfold made_dirs. by rewrite map_app, concat_app. Qed.

Lemma write_paths_app es1 es2 : write_paths (es1 ++ es2) = write_paths es1 ++ write_paths es2.
Proof. unfold write_paths. by rewrite map_app, concat_app. Qed.

Lemma fetches_make_nothing es :
  Forall is_fetch es -> made_dirs es = [] /\ write_paths es = [].
Proof.
  induction 1 as [|e es He _ [IH1 IH2]]; [done|].
  destruct e; first [done | by destruct He].
Qed.

Lemma writes_of_zip {A} (path : A -> string) (l : list A) : forall contents,
  length contents = length l ->
  write_paths (zip_with (fun n c => WriteText (path n) c) l contents) = map path l /\
  made_dirs (zip_with (fun n c => WriteText (path n) c) l contents) = [].
Proof.
  induction l as [|x l IH]; intros [|c cs]; simpl; try done.
  intros [= H]. destruct (IH cs H) as [IH1 IH2].
  unfold write_paths, made_dirs in *. simpl. by rewrite IH1, IH2.
Qed.



(* ===================================================================== *)
(** ** Further properties of the rendered documents *)
(* ===================================================================== *)

Lemma strip_prefix_app_some (n a r b : string) :
  strip_prefix n a = Some r -> strip_prefix n (a +:+ b) = Some (r +:+ b).
Proof.
  revert a. induction n as [|c n IH]; intros a; simpl.
  - by intros [= ->].
  - destruct a as [|d a]; [done|]. simpl.
    destruct (Ascii.eqb c d); [apply IH | done].
Qed.

Lemma contains_empty_text n : contains n "" = true -> n = "".
Proof. destruct n; [done | simpl; discriminate]. Qed.

Lemma contains_empty_needle a : contains "" a = true.
Proof. by destruct a. Qed.

Lemma contains_step n c a :
  contains n (String c a) =
  match strip_prefix n (String c a) with
  | Some _ => true
  | None => contains n a
  end.
Proof. reflexivity. Qed.

Lemma contains_app_l (n a b : string) :
  contains n a = true -> contains n (a +:+ b) = true.
Proof.
  induction a as [|c a IH].
  - intros H. apply contains_empty_text in H as ->. apply contains_empty_needle.
  - change (String c a +:+ b) with (String c (a +:+ b)).
    rewrite !contains_step.
    destruct (strip_prefix n (String c a)) as [r|] eqn:E.
    + intros _.
      pose proof (strip_prefix_app_some n (String c a) r b E) as E'.
      change (String c a +:+ b) with (String c (a +:+ b)) in E'. by rewrite E'.
    + intros H. destruct (strip_prefix n (String c (a +:+ b))); [done | by apply IH].
Qed.

Lemma contains_app_r (n a b : string) :
  contains n b = true -> contains n (a +:+ b) = true.
Proof.
  intros H. induction a as [|c a IH]; [exact H|].
  change (String c a +:+ b) with (String c (a +:+ b)).
  rewrite contains_step. by destruct (strip_prefix n (String c (a +:+ b))).
Qed.

Lemma strip_prefix_self n : strip_prefix n n = Some "".
Proof. induction n as [|c n IH]; simpl; [done|]. by rewrite Ascii.eqb_refl. Qed.

Lemma contains_self n : contains n n = true.
Proof.
  destruct n as [|c n]; [done|]. by rewrite contains_step, strip_prefix_self.
Qed.

Lemma join_cons sep x y l :
  join sep (x :: y :: l) = x +:+ sep +:+ join sep (y :: l).
Proof. reflexivity. Qed.

(** An entry of a joined list is found in the text. *)
Lemma contains_join sep x l : In x l -> contains x (join sep l) = true.
Proof.
  induction l as [|y l IH]; [done|].
  destruct l as [|z l].
  - intros [->|[]]. apply contains_self.
  - rewrite join_cons. intros [->|H].
    + apply contains_app_l, contains_self.
    + do 2 apply contains_app_r. by apply IH.
Qed.

Lemma cat_cons x l : cat (x :: l) = x +:+ cat l.
Proof.
  unfold cat. destruct l as [|y l]; [|reflexivity].
  change (x = x +:+ "").
  induction x as [|c x IH]; [done|].
  change (String c x = String c (x +:+ "")). by f_equal.
Qed.

(** A line of a template is found in the text. *)
Lemma contains_lines x ls : In x ls -> contains x (lines ls) = true.
Proof.
  unfold lines. induction ls as [|y ls IH]; [done|].
  change (map (fun l => l +:+ nl) (y :: ls))
    with ((y +:+ nl) :: map (fun l => l +:+ nl) ls).
  rewrite cat_cons. intros [->|H].
  - do 2 apply contains_app_l. apply contains_self.
  - apply contains_app_r. by apply IH.
Qed.

Lemma In_enumerate {A} (x : A) (xs : list A) : forall start,
  In x xs -> exists i, In (i, x) (enumerate start xs).
Proof.
  unfold enumerate. induction xs as [|y xs IH]; intros start; simpl; [done|].
  intros [->|H].
  - exists start. by left.
  - destruct (IH (S start) H) as [i Hi]. exists i. by right.
Qed.

(** X19.  Nothing of the analysis is lost in the feature file: for every
    scenario of the analysis the file shows the label after "  Scenario: "
    (so a label that already begins with "Scenario: " is shown with the
    word twice) and every given, when and then entry after its keyword. *)
Theorem feature_file_shows_every_scenario :
  forall analysis sc,
    In sc (an_test_scenarios analysis) ->
    let feature := _generate_feature_file analysis in
    contains (cat ["  Scenario: "; scenario sc]) feature = true /\
    (forall step, In step (given sc) ->
                  contains (cat ["    Given "; step]) feature = true) /\
    (forall step, In step (when_ sc) ->
                  contains (cat ["    When "; step]) feature = true) /\
    (forall step, In step (then_ sc) ->
                  contains (cat ["    Then "; step]) feature = true).
Proof.
  intros analysis sc Hsc feature.
  destruct (In_enumerate sc (an_test_scenarios analysis) 0 Hsc) as [i Hi].
  set (block := fun p : nat * TestScenario =>
         let '(i, scenario) := p in
         [cat ["  Scenario: "; TestGenerator.scenario scenario]]
         ++ map (fun step => cat ["    Given "; step]) (given scenario)
         ++ map (fun step => cat ["    When "; step]) (when_ scenario)
         ++ map (fun step => cat ["    Then "; step]) (then_ scenario)
         ++ (if Nat.ltb i (length (an_test_scenarios analysis) - 1) then [""] else [])).
  assert (Hfeature : exists before,
             feature = join nl (before
                                ++ concat (map block (enumerate 0 (an_test_scenarios analysis))))).
  { subst feature. unfold _generate_feature_file.
    destruct (truthy (an_discussion_summary analysis)); eexists; reflexivity. }
  destruct Hfeature as [before ->].
  assert (Hline : forall x, In x (block (i, sc)) ->
                            contains x (join nl (before
                                                 ++ concat (map block
                                                              (enumerate 0 (an_test_scenarios analysis)))))
                            = true).
  { intros x Hx. apply contains_join, in_or_app. right.
    apply in_concat. exists (block (i, sc)). split; [|exact Hx].
    apply in_map_iff. by exists (i, sc). }
  repeat split.
  - apply Hline. simpl. by left.
  - intros step Hstep. apply Hline. simpl. right.
    apply in_or_app. left. apply in_map_iff. by exists step.
  - intros step Hstep. apply Hline. simpl. right.
    apply in_or_app. right. apply in_or_app. left. apply in_map_iff. by exists step.
  - intros step Hstep. apply Hline. simpl. right.
    do 2 (apply in_or_app; right). apply in_or_app. left. apply in_map_iff. by exists step.
Qed.

Lemma feature_file_shows_every_scenario_witness :
  contains "  Scenario: Scenario: Login"
           (_generate_feature_file
              {| an_ticket_key := "PROJ-1"; an_summary := "Login";
                 an_discussion_summary := "";
                 an_test_scenarios :=
                   [ {| scenario := "Scenario: Login"; given := ["user is logged in"];
                        when_ := ["user clicks submit"]; then_ := ["order is placed"] |} ];
                 an_estimated_test_count := 1; an_complexity := low |}) = true.
Proof.
  apply (feature_file_shows_every_scenario
           {| an_ticket_key := "PROJ-1"; an_summary := "Login";
              an_discussion_summary := "";
              an_test_scenarios :=
                [ {| scenario := "Scenario: Login"; given := ["user is logged in"];
                     when_ := ["user clicks submit"]; then_ := ["order is placed"] |} ];
              an_estimated_test_count := 1; an_complexity := low |}
           {| scenario := "Scenario: Login"; given := ["user is logged in"];
              when_ := ["user clicks submit"]; then_ := ["order is placed"] |}).
  simpl. by left.
Defined.

Ltac find_line := simpl; repeat first [left; reflexivity | right].

